(** * Build diagnostics runner: [frontend/render_build_diagnostics.py]

    A shallow embedding of the script and the properties of its listing,
    strategy-selection, process-execution and exit-code behaviour.

    The script is sequential glue around the file system, the search path
    and child processes.  It is modelled as a program in a small
    state-and-exit monad over an explicit [world]; everything printed and
    every external call is appended to a trace. *)

From Stdlib Require Import List String Ascii ZArith Bool Arith Lia.
From Stdlib Require Import Sorted Permutation DecimalString.
Import ListNotations.

#[local] Open Scope string_scope.
#[local] Open Scope list_scope.
#[local] Open Scope nat_scope.

Set Implicit Arguments.

(* ================================================================== *)
(** * Paths and their ordering *)
(* ================================================================== *)

(** A path relative to some directory is the sequence of its segments,
    as [Path.parts] has it. *)
Definition parts := list string.

(** Python compares two paths segment by segment, each segment by code
    point; on UTF-8 text that is the byte order of [String.compare]. *)
Definition parts_compare : parts -> parts -> comparison :=
  list_compare String.compare.

Definition parts_leb (p q : parts) : bool :=
  match parts_compare p q with Gt => false | _ => true end.

Definition parts_le (p q : parts) : Prop := parts_leb p q = true.

Definition nl : string := String (ascii_of_nat 10) EmptyString.

(** [str(rel)]: the segments joined by the separator. *)
Definition str_path (p : parts) : string := String.concat "/" p.

(* ================================================================== *)
(** * [sorted] *)
(* ================================================================== *)

Section Sorted.
Variable A : Type.
Variable leb : A -> A -> bool.

Fixpoint insert_sorted (x : A) (l : list A) : list A :=
  match l with
  | [] => [x]
  | y :: l' => if leb x y then x :: l else y :: insert_sorted x l'
  end.

(** [sorted(xs)]: a stable sort, by insertion from the right. *)
Fixpoint sorted (l : list A) : list A :=
  match l with
  | [] => []
  | x :: l' => insert_sorted x (sorted l')
  end.
End Sorted.

(* ================================================================== *)
(** * The file system under [ROOT] *)
(* ================================================================== *)

(** Entries are regular files (with their bytes) or directories; links
    and special files are outside the model. *)
#[warnings="-register-all"]
Inductive node : Type :=
| File (content : string)
| Dir (children : list (string * node)).

Definition is_dir (n : node) : bool :=
  match n with Dir _ => true | File _ => false end.

Definition is_file (n : node) : bool :=
  match n with File _ => true | Dir _ => false end.

Fixpoint lookup_child (name : string) (ch : list (string * node)) : option node :=
  match ch with
  | [] => None
  | (k, n) :: ch' => if String.eqb k name then Some n else lookup_child name ch'
  end.

(** [path / seg1 / seg2 ...] resolved from a node. *)
Fixpoint resolve (n : node) (p : parts) : option node :=
  match p with
  | [] => Some n
  | seg :: p' =>
      match n with
      | Dir ch =>
          match lookup_child seg ch with
          | Some c => resolve c p'
          | None => None
          end
      | File _ => None
      end
  end.

(** [path.rglob("*")]: every entry below [path], files and directories
    alike, each with its path relative to [path].  The order the operating
    system yields them in is the order of the children lists. *)
Fixpoint rglob (n : node) : list (parts * node) :=
  match n with
  | File _ => []
  | Dir ch =>
      flat_map
        (fun kc => ([fst kc], snd kc)
                   :: map (fun pn => (fst kc :: fst pn, snd pn)) (rglob (snd kc)))
        ch
  end.

(** [path.iterdir()] of a directory: its direct entries. *)
Definition iterdir_children (ch : list (string * node)) : list (parts * node) :=
  map (fun kc => ([fst kc], snd kc)) ch.

Definition by_path (a b : parts * node) : bool := parts_leb (fst a) (fst b).

(* ================================================================== *)
(** * [ls_tree]: the recursive listing of lines 37-49 *)
(* ================================================================== *)

Definition excluded_names : list string :=
  ["node_modules"; ".git"; ".cache"; "dist"; "build"; ".next"].

Definition in_names (s : string) (l : list string) : bool :=
  existsb (String.eqb s) l.

(** [rel.parts and rel.parts[0] in (...)] *)
Definition excluded (rel : parts) : bool :=
  match rel with
  | [] => false
  | seg :: _ => in_names seg excluded_names
  end.

Definition truncated_marker : string := "... (truncated)".

(** The [for] loop of [ls_tree], with [entries] as accumulator. *)
Fixpoint ls_tree_loop (max_entries : nat) (ps : list (parts * node))
         (entries : list string) : list string :=
  match ps with
  | [] => entries
  | (rel, p) :: rest =>
      if excluded rel then ls_tree_loop max_entries rest entries
      else if is_dir p then ls_tree_loop max_entries rest entries
      else
        let entries := entries ++ [str_path rel] in
        if Nat.leb max_entries (List.length entries)
        then entries ++ [truncated_marker]
        else ls_tree_loop max_entries rest entries
  end.

(** The list [entries] that [ls_tree(path)] ends up with, [found] being
    what [path.rglob("*")] yields. *)
Definition ls_tree_entries (max_entries : nat) (found : list (parts * node))
  : list string :=
  ls_tree_loop max_entries (sorted by_path found) [].

(** The line [ls_tree] prints. *)
Definition ls_tree_text (entries : list string) : string :=
  match entries with
  | [] => "(no files found)"
  | _ => String.concat nl entries
  end.

(** Used to state what the loops compute.  An entry [ls_tree] lists: not under an excluded name, not a
    directory. *)
Definition keep (pn : parts * node) : bool :=
  negb (excluded (fst pn)) && negb (is_dir (snd pn)).

Definition shown (pn : parts * node) : string := str_path (fst pn).

Definition file_entry (pn : parts * node) : bool := is_file (snd pn).

(** The top-level listing of line 77:
    [[p.name for p in sorted(ROOT.iterdir())][:80]]. *)
Definition path_name (p : parts) : string := last p "".

Definition top_level_names (ch : list (string * node)) : list string :=
  firstn 80 (map (fun pn => path_name (fst pn)) (sorted by_path (iterdir_children ch))).

(** The loop of lines 155-161 over the publish directory. *)
Fixpoint out_files_loop (ps : list (parts * node)) (out_files : list string)
  : list string :=
  match ps with
  | [] => out_files
  | (rel, p) :: rest =>
      let out_files := if is_file p then out_files ++ [str_path rel] else out_files in
      if Nat.leb 120 (List.length out_files)
      then out_files ++ [truncated_marker]
      else out_files_loop rest out_files
  end.

Definition publish_entries (found : list (parts * node)) : list string :=
  out_files_loop (sorted by_path found) [].

Definition publish_text (out_files : list string) : string :=
  match out_files with
  | [] => "(empty output dir)"
  | _ => String.concat nl out_files
  end.

(* ================================================================== *)
(** * Python values, exceptions, the world *)
(* ================================================================== *)

(** The values the script prints or gets from [json.loads]. *)
#[warnings="-register-all"]
Inductive pyval : Type :=
| PNone
| PBool (b : bool)
| PInt (z : Z)
| PFloat (repr : string)
| PStr (s : string)
| PList (items : list pyval)
| PDict (items : list (string * pyval)).

Definition type_name (v : pyval) : string :=
  match v with
  | PNone => "NoneType"
  | PBool _ => "bool"
  | PInt _ => "int"
  | PFloat _ => "float"
  | PStr _ => "str"
  | PList _ => "list"
  | PDict _ => "dict"
  end.

Inductive exn : Type :=
| FileNotFoundError (msg : string)
| IsADirectoryError (msg : string)
| NotADirectoryError (msg : string)
| JSONDecodeError (msg : string)
| AttributeError (msg : string)
| UnicodeDecodeError (msg : string).

(** [str(e)] *)
Definition exn_str (e : exn) : string :=
  match e with
  | FileNotFoundError m | IsADirectoryError m | NotADirectoryError m
  | JSONDecodeError m | AttributeError m | UnicodeDecodeError m => m
  end.

(** What the script can observe of its surroundings.  [w_root] is the
    entry at [ROOT], [None] when there is none; [w_platform] is the text
    [platform.platform()] answers, however the library gets at it. *)
Record world : Type := {
  w_cwd : string;
  w_version : string;
  w_platform : string;
  w_environ : list (string * string);
  w_which : string -> option string;
  w_root : option node
}.

(** [subprocess.run(..., text=True)]: the child ran to an exit code and
    its output was decoded, leaving a possibly changed world; or it ran
    to an exit code and what it wrote is not text, so that decoding
    raises; or it could not be started. *)
Inductive spawn_result : Type :=
| Spawned (returncode : Z) (stdout : string) (w' : world)
| Undecodable (returncode : Z) (msg : string) (w' : world)
| SpawnFailed (e : exn).

Inductive event : Type :=
| Print (args : list pyval)
| Spawn (cmd : list string) (cwd : string)
| JsonLoads (text : string).

Record state : Type := { st_world : world; st_trace : list event }.

(** How a computation ends: a value, [sys.exit(code)], or an exception
    nobody caught. *)
Inductive res (A : Type) : Type :=
| Ret (a : A)
| SysExit (code : Z)
| Raised (e : exn).
Arguments Ret {A} a.
Arguments SysExit {A} code.
Arguments Raised {A} e.

Definition M (A : Type) : Type := state -> res A * state.

Definition ret {A} (a : A) : M A := fun s => (Ret a, s).

Definition bind {A B} (m : M A) (k : A -> M B) : M B :=
  fun s =>
    match m s with
    | (Ret a, s') => k a s'
    | (SysExit c, s') => (SysExit c, s')
    | (Raised e, s') => (Raised e, s')
    end.

Notation "x <- c1 ;; c2" := (bind c1 (fun x => c2))
  (at level 61, c1 at next level, right associativity).
Notation "c1 ;; c2" := (bind c1 (fun _ => c2))
  (at level 61, right associativity).

Definition sys_exit {A} (code : Z) : M A := fun s => (SysExit code, s).
Definition raise {A} (e : exn) : M A := fun s => (Raised e, s).

(** [try: body / except Exception as e: handler(e)]; [SystemExit] is not
    an [Exception] and passes through. *)
Definition try_except {A} (body : M A) (handler : exn -> M A) : M A :=
  fun s =>
    match body s with
    | (Raised e, s') => handler e s'
    | r => r
    end.

Definition emit (e : event) : M unit :=
  fun s => (Ret tt, {| st_world := st_world s; st_trace := st_trace s ++ [e] |}).

Definition print (args : list pyval) : M unit := emit (Print args).

Definition get_world : M world := fun s => (Ret (st_world s), s).

Definition set_world (w : world) : M unit :=
  fun s => (Ret tt, {| st_world := w; st_trace := st_trace s |}).

Fixpoint for_each {A} (l : list A) (body : A -> M unit) : M unit :=
  match l with
  | [] => ret tt
  | x :: l' => body x ;; for_each l' body
  end.

(** The exit status of the process: 0 when [main] returns, the low
    eight bits of the code given to [sys.exit], 1 after an exception
    nobody caught. *)
Definition exit_status {A} (r : res A) : Z :=
  match r with
  | Ret _ => 0
  | SysExit c => c mod 256
  | Raised _ => 1
  end.

(** ** Small helpers for the Python expressions used *)

Definition str_Z (z : Z) : string := NilZero.string_of_int (Z.to_int z).

Definition opt_str (o : option string) : pyval :=
  match o with Some s => PStr s | None => PNone end.

(** Truth value of a [str]-or-[None]. *)
Definition truthy (o : option string) : bool :=
  match o with
  | Some s => negb (String.eqb s "")
  | None => false
  end.

Fixpoint replace_nl (s : string) : string :=
  match s with
  | EmptyString => EmptyString
  | String c s' =>
      String (if Ascii.eqb c (ascii_of_nat 10) then " "%char else c) (replace_nl s')
  end.

Fixpoint dict_get {V} (k : string) (d : list (string * V)) : option V :=
  match d with
  | [] => None
  | (k', v) :: d' => if String.eqb k' k then Some v else dict_get k d'
  end.

(** The entry at [ROOT / p], if any. *)
Definition node_at (w : world) (p : parts) : option node :=
  match w_root w with
  | Some r => resolve r p
  | None => None
  end.

(** [(ROOT / p).exists()], [.is_dir()] and [.rglob("*")]. *)
Definition exists_at (w : world) (p : parts) : bool :=
  match node_at w p with Some _ => true | None => false end.

Definition is_dir_at (w : world) (p : parts) : bool :=
  match node_at w p with Some n => is_dir n | None => false end.

Definition rglob_at (w : world) (p : parts) : list (parts * node) :=
  match node_at w p with Some n => rglob n | None => [] end.

(** The list [found] of lines 134-139. *)
Definition found_candidates (w : world) : list string :=
  filter (fun c => exists_at w [c] && is_dir_at w [c]) ["dist"; "build"; ".next"].

(* ================================================================== *)
(** * The script *)
(* ================================================================== *)

(** The pure decision of lines 111-122, over the three lockfile booleans
    and the two [shutil.which] results. *)
Definition install_strategy (has_pnpm has_npm has_yarn : bool)
           (which_pnpm which_yarn : option string)
  : list string * list string :=
  if has_pnpm && truthy which_pnpm then
    (["pnpm"; "install"; "--frozen-lockfile"], ["pnpm"; "run"; "build"])
  else if has_yarn && truthy which_yarn then
    (["yarn"; "install"; "--frozen-lockfile"], ["yarn"; "build"])
  else
    (if has_npm then ["npm"; "ci"] else ["npm"; "install"],
     ["npm"; "run"; "build"]).

(** The two f-strings of [run]: line 18 and line 29. *)
Definition command_echo (cmd : list string) (cwd : string) : string :=
  (nl ++ "$ " ++ String.concat " " cmd ++ "  (cwd=" ++ cwd ++ ")")%string.

Definition failure_banner (returncode : Z) (cmd : list string) : string :=
  (nl ++ "!! Command failed (exit=" ++ str_Z returncode ++ "): "
      ++ String.concat " " cmd)%string.

Definition add_events (s : state) (evs : list event) : state :=
  {| st_world := st_world s; st_trace := st_trace s ++ evs |}.

(** What [hr(title)] prints. *)
Definition hr_events (title : string) : list event :=
  [Print [PStr (nl ++ String.concat "" (repeat "=" 72))%string];
   Print [PStr title];
   Print [PStr (String.concat "" (repeat "=" 72))]].

Section Script.

(** [ROOT], the directory of the script, as text. *)
Variable ROOT : string.

(** The behaviour of child processes, and the library's JSON reader and
    writer ([json.loads], with [inl] for the description of a
    [JSONDecodeError]; [json.dumps(_, indent=2)]). *)
Variable spawn : list string -> string -> world -> spawn_result.
Variable json_loads : string -> string + pyval.
Variable json_dumps : pyval -> string.

Definition child (name : string) : string := (ROOT ++ "/" ++ name)%string.

(** Lines 12-15. *)
Definition hr (title : string) : M unit :=
  print [PStr (nl ++ String.concat "" (repeat "=" 72))%string] ;;
  print [PStr title] ;;
  print [PStr (String.concat "" (repeat "=" 72))].

Definition subprocess_run (cmd : list string) (cwd : string) : M (Z * string) :=
  emit (Spawn cmd cwd) ;;
  w <- get_world ;;
  match spawn cmd cwd w with
  | Spawned rc out w' => set_world w' ;; ret (rc, out)
  | Undecodable _ msg w' => set_world w' ;; raise (UnicodeDecodeError msg)
  | SpawnFailed e => raise e
  end.

(** Lines 17-31. *)
Definition run (cmd : list string) (cwd : string) (check : bool) : M (Z * string) :=
  print [PStr (command_echo cmd cwd)] ;;
  p <- subprocess_run cmd cwd ;;
  print [PStr (snd p)] ;;
  if check && negb (fst p =? 0)%Z then
    print [PStr (failure_banner (fst p) cmd)] ;;
    sys_exit (fst p)
  else ret p.

(** Lines 33-35. *)
Definition safe_env_dump : M unit :=
  w <- get_world ;;
  let keys := sorted String.leb (map fst (w_environ w)) in
  print [PStr "ENV KEYS:"; PStr (String.concat ", " keys)].

(** Lines 37-49. *)
Definition ls_tree (path : parts) (max_entries : nat) : M unit :=
  w <- get_world ;;
  print [PStr (ls_tree_text (ls_tree_entries max_entries (rglob_at w path)))].

Definition which (tool : string) : M (option string) :=
  w <- get_world ;; ret (w_which w tool).

(** Lines 52-58. *)
Definition report_environment : M unit :=
  hr "RENDER FRONTEND BUILD DIAGNOSTICS" ;;
  w <- get_world ;;
  print [PStr "PWD:"; PStr (w_cwd w)] ;;
  print [PStr "ROOT:"; PStr ROOT] ;;
  print [PStr "Python:"; PStr (replace_nl (w_version w))] ;;
  print [PStr "Platform:"; PStr (w_platform w)] ;;
  print [PStr "CI:"; opt_str (dict_get "CI" (w_environ w))] ;;
  safe_env_dump.

Definition version_check (tool : string) : M unit :=
  p <- which tool ;;
  if truthy p then run [tool; "-v"] ROOT false ;; ret tt else ret tt.

(** Lines 60-71. *)
Definition check_tooling : M unit :=
  hr "CHECK TOOLING AVAILABILITY" ;;
  for_each ["node"; "npm"; "pnpm"; "yarn"]
    (fun tool => p <- which tool ;; print [PStr (tool ++ ": ")%string; opt_str p]) ;;
  version_check "node" ;;
  version_check "npm" ;;
  version_check "pnpm" ;;
  version_check "yarn".

(** Lines 73-79. *)
Definition directory_contents : M unit :=
  hr "FRONTEND DIRECTORY CONTENTS (SANITY)" ;;
  w <- get_world ;;
  match w_root w with
  | None =>
      print [PStr "ERROR: frontend directory not found."] ;;
      sys_exit 2
  | Some (File _) => raise (NotADirectoryError ROOT)
  | Some (Dir ch) =>
      print [PStr "Top-level files:"; PList (map PStr (top_level_names ch))] ;;
      print [PStr (nl ++ "File listing (trimmed):")%string] ;;
      ls_tree [] 250
  end.

(** [pkg_path.read_text(encoding="utf-8")] *)
Definition read_text (p : parts) : M string :=
  w <- get_world ;;
  match node_at w p with
  | Some (File content) => ret content
  | Some (Dir _) => raise (IsADirectoryError (child (str_path p)))
  | None => raise (FileNotFoundError (child (str_path p)))
  end.

Definition loads (text : string) : M pyval :=
  emit (JsonLoads text) ;;
  match json_loads text with
  | inr v => ret v
  | inl msg => raise (JSONDecodeError msg)
  end.

(** Lines 81-92. *)
Definition load_manifest : M pyval :=
  let pkg_path := ["package.json"] in
  w <- get_world ;;
  (if negb (exists_at w pkg_path) then
     hr "ERROR" ;;
     print [PStr "package.json not found inside frontend/. Render Root Directory is likely wrong."] ;;
     sys_exit 3
   else ret tt) ;;
  hr "PACKAGE.JSON SUMMARY" ;;
  try_except
    (text <- read_text pkg_path ;; loads text)
    (fun e =>
       print [PStr "Failed to parse package.json:"; PStr (exn_str e)] ;;
       sys_exit 4).

(** [obj.get(key, default)]: only a [dict] has the method. *)
Definition py_get (obj : pyval) (key : string) (default : pyval) : M pyval :=
  match obj with
  | PDict d =>
      ret (match dict_get key d with Some v => v | None => default end)
  | _ =>
      raise (AttributeError
               ("'" ++ type_name obj ++ "' object has no attribute 'get'")%string)
  end.

(** Lines 94-98. *)
Definition package_summary (pkg : pyval) : M unit :=
  v <- py_get pkg "name" PNone ;;
  print [PStr "name:"; v] ;;
  v <- py_get pkg "type" PNone ;;
  print [PStr "type:"; v] ;;
  v <- py_get pkg "engines" PNone ;;
  print [PStr "engines:"; v] ;;
  scripts <- py_get pkg "scripts" (PDict []) ;;
  print [PStr "scripts:"; PStr (json_dumps scripts)].

(** Lines 100-125. *)
Definition determine_install_strategy : M (list string * list string) :=
  hr "DETERMINE INSTALL STRATEGY" ;;
  w <- get_world ;;
  let has_pnpm := exists_at w ["pnpm-lock.yaml"] in
  let has_npm := exists_at w ["package-lock.json"] in
  let has_yarn := exists_at w ["yarn.lock"] in
  print [PStr "Lockfiles:";
         PDict [("pnpm-lock.yaml", PBool has_pnpm);
                ("package-lock.json", PBool has_npm);
                ("yarn.lock", PBool has_yarn)]] ;;
  which_pnpm <- which "pnpm" ;;
  which_yarn <- which "yarn" ;;
  let cmds := install_strategy has_pnpm has_npm has_yarn which_pnpm which_yarn in
  print [PStr "Installer command:"; PList (map PStr (fst cmds))] ;;
  print [PStr "Build command:"; PList (map PStr (snd cmds))] ;;
  ret cmds.

(** Lines 127-131. *)
Definition install_and_build (cmds : list string * list string) : M unit :=
  hr "INSTALL DEPENDENCIES" ;;
  run (fst cmds) ROOT true ;;
  hr "RUN BUILD" ;;
  run (snd cmds) ROOT true ;;
  ret tt.

(** Lines 133-153; the result is the publish directory, relative to
    [ROOT]. *)
Definition locate_build_output : M parts :=
  hr "LOCATE BUILD OUTPUT" ;;
  w <- get_world ;;
  let found := found_candidates w in
  print [PStr "Build output candidates found:"; PList (map PStr found)] ;;
  publish_dir <-
    (if in_names "dist" found then ret ["dist"]
     else if in_names "build" found then ret ["build"]
     else
       (if in_names ".next" found then
          print [PStr (nl ++ "NOTE: Detected .next. This is likely Next.js.")%string] ;;
          print [PStr "If you want Static Site: ensure `next export` is used and output is `out/`."]
        else ret tt) ;;
       print [PStr (nl ++ "ERROR: No dist/ or build/ directory produced. Build succeeded but output folder missing.")%string] ;;
       sys_exit 5) ;;
  print [PStr "Publish directory:"; PStr (child (str_path publish_dir))] ;;
  ret publish_dir.

(** Lines 154-162. *)
Definition publish_listing (publish_dir : parts) : M unit :=
  hr "PUBLISH DIRECTORY LISTING (TOP)" ;;
  w <- get_world ;;
  print [PStr (publish_text (publish_entries (rglob_at w publish_dir)))].

(** Lines 164-165. *)
Definition success : M unit :=
  hr "SUCCESS" ;;
  print [PStr "Frontend build diagnostics completed successfully."].

(** Lines 51-165. *)
Definition main : M unit :=
  report_environment ;;
  check_tooling ;;
  directory_contents ;;
  pkg <- load_manifest ;;
  package_summary pkg ;;
  cmds <- determine_install_strategy ;;
  install_and_build cmds ;;
  publish_dir <- locate_build_output ;;
  publish_listing publish_dir ;;
  success.

(** The run up to the manifest (lines 52-79), and up to the end of
    the build (lines 52-131). *)
Definition before_manifest : M unit :=
  report_environment ;;
  check_tooling ;;
  directory_contents.

(** The rest of the run from the manifest on (lines 81-165), and after
    the build (lines 133-165). *)
Definition after_build : M unit :=
  publish_dir <- locate_build_output ;;
  publish_listing publish_dir ;;
  success.

Definition from_manifest : M unit :=
  pkg <- load_manifest ;;
  package_summary pkg ;;
  cmds <- determine_install_strategy ;;
  install_and_build cmds ;;
  after_build.

Definition through_build : M unit :=
  before_manifest ;;
  pkg <- load_manifest ;;
  package_summary pkg ;;
  cmds <- determine_install_strategy ;;
  install_and_build cmds.

(** The run up to the sanity check (lines 52-71), and up to the chosen
    strategy (lines 52-125). *)
Definition before_sanity : M unit :=
  report_environment ;;
  check_tooling.

Definition through_strategy : M (list string * list string) :=
  before_manifest ;;
  pkg <- load_manifest ;;
  package_summary pkg ;;
  determine_install_strategy.

End Script.

(* ================================================================== *)
(** * The precedence table of the install strategy, as specified *)
(* ================================================================== *)






(* ================================================================== *)
(** * Concrete scenarios *)
(* ================================================================== *)

Definition file_name (i : nat) : string :=
  ("f" ++ NilEmpty.string_of_uint (Nat.to_uint i))%string.

(** A directory of [n] files. *)
Definition flat_dir (n : nat) : list (string * node) :=
  map (fun i => (file_name i, File "")) (seq 0 n).

Definition demo_which (tool : string) : option string :=
  if in_names tool ["node"; "npm"] then Some ("/usr/bin/" ++ tool)%string else None.

Definition demo_world (root : option node) : world :=
  {| w_cwd := "/srv/app";
     w_version := ("3.11.4 (main)" ++ nl ++ "[GCC 12.2.0]")%string;
     w_platform := "Linux-6.1-x86_64";
     w_environ := [("PATH", "/usr/bin"); ("CI", "true")];
     w_which := demo_which;
     w_root := root |}.

Definition demo_state (root : option node) : state :=
  {| st_world := demo_world root; st_trace := [] |}.

Definition add_to_root (produced : list (string * node)) (w : world) : world :=
  {| w_cwd := w_cwd w; w_version := w_version w; w_platform := w_platform w;
     w_environ := w_environ w; w_which := w_which w;
     w_root := match w_root w with
               | Some (Dir ch) => Some (Dir (ch ++ produced))
               | r => r
               end |}.

(** A child that ends with code 3 having written bytes that are not
    text. *)
Definition garbled_child (cmd : list string) (cwd : string) (w : world)
  : spawn_result :=
  Undecodable 3 "'utf-8' codec can't decode byte 0xff in position 0: invalid start byte" w.

(** Children that all exit with [returncode]; the build script leaves
    [produced] under the root. *)
Definition demo_spawn (returncode : Z) (produced : list (string * node))
           (cmd : list string) (cwd : string) (w : world) : spawn_result :=
  if String.eqb (String.concat " " cmd) "npm run build"
  then Spawned returncode "built" (add_to_root produced w)
  else Spawned returncode "ok" w.

(** Children of which only the build script fails, with code 7. *)
Definition failing_build (cmd : list string) (cwd : string) (w : world)
  : spawn_result :=
  if String.eqb (String.concat " " cmd) "npm run build"
  then Spawned 7 "boom" w
  else Spawned 0 "ok" w.

(** A reader that knows two documents and rejects the rest. *)
Definition demo_loads (text : string) : string + pyval :=
  if String.eqb text "{}" then inr (PDict [])
  else if String.eqb text "[]" then inr (PList [])
  else inl "Expecting value: line 1 column 1 (char 0)".

Definition demo_dumps (v : pyval) : string := "{}".

Definition demo_ROOT : string := "/srv/app/frontend".

Definition project (manifest : string) : node :=
  Dir [("package.json", File manifest); ("src", Dir [("main.js", File "")])].

Definition next_only : list (string * node) :=
  [(".next", Dir [("cache", Dir [])])].

Definition empty_dist : list (string * node) :=
  [("dist", Dir [("assets", Dir [])])].

Definition dist3 : list (string * node) :=
  [("dist", Dir [("index.html", File "");
                 ("assets", Dir [("app.js", File ""); ("app.css", File "")])])].

(* ================================================================== *)
(** * The path order is a total preorder; [sorted] sorts *)
(* ================================================================== *)

(* ================================================================== *)
(** * Observations on traces and text *)
(* ================================================================== *)

(** How many times a stretch of the trace calls [subprocess.run]. *)
Fixpoint count_spawns (evs : list event) : nat :=
  match evs with
  | [] => 0
  | Spawn _ _ :: evs' => S (count_spawns evs')
  | _ :: evs' => count_spawns evs'
  end.

(** Every call of [subprocess.run] in the stretch has [cwd] as working
    directory. *)
Definition spawned_in (cwd : string) (evs : list event) : Prop :=
  forall cmd c, In (Spawn cmd c) evs -> c = cwd.

Fixpoint contains_char (c : ascii) (s : string) : bool :=
  match s with
  | EmptyString => false
  | String c' s' => Ascii.eqb c' c || contains_char c s'
  end.

(** A computation leaves by [sys.exit] only with codes in [P]. *)
Definition exits_within {A} (P : Z -> Prop) (m : M A) : Prop :=
  forall s c s', m s = (SysExit c, s') -> P c.

(** A computation only appends to the trace, and what it appends
    satisfies [Q]. *)
Definition appends {A} (Q : list event -> Prop) (m : M A) : Prop :=
  forall s, exists evs, st_trace (snd (m s)) = st_trace s ++ evs /\ Q evs.

Unset Implicit Arguments.

Lemma ascii_compare_refl (a : ascii) : Ascii.compare a a = Eq.
Proof. unfold Ascii.compare. apply N.compare_refl. Qed.

Lemma ascii_compare_trans (a b d : ascii) (c : comparison) :
  Ascii.compare a b = c -> Ascii.compare b d = c -> Ascii.compare a d = c.
Proof.
  unfold Ascii.compare. destruct c; intros H1 H2.
  - apply N.compare_eq_iff in H1, H2. apply N.compare_eq_iff. congruence.
  - rewrite N.compare_lt_iff in *. lia.
  - rewrite N.compare_gt_iff in *. lia.
Qed.

Lemma string_compare_refl (s : string) : String.compare s s = Eq.
Proof.
  induction s as [|a s IH]; simpl; [reflexivity|].
  now rewrite ascii_compare_refl.
Qed.

Lemma string_compare_eq (s t : string) : String.compare s t = Eq <-> s = t.
Proof.
  split; [apply String.compare_eq_iff | intros ->; apply string_compare_refl].
Qed.

Lemma string_compare_trans (x y z : string) (c : comparison) :
  String.compare x y = c -> String.compare y z = c -> String.compare x z = c.
Proof.
  revert y z c.
  induction x as [|a x IH]; intros [|b y] [|d z] c; simpl; try congruence.
  destruct (Ascii.compare a b) eqn:Eab; destruct (Ascii.compare b d) eqn:Ebd;
    try (apply Ascii.compare_eq_iff in Eab; subst b);
    try (apply Ascii.compare_eq_iff in Ebd; subst d);
    rewrite ?ascii_compare_refl, ?Eab, ?Ebd;
    try congruence; try apply IH.
  - rewrite (ascii_compare_trans _ _ _ _ Eab Ebd). congruence.
  - rewrite (ascii_compare_trans _ _ _ _ Eab Ebd). congruence.
Qed.

Lemma parts_compare_antisym (p q : parts) :
  parts_compare q p = CompOpp (parts_compare p q).
Proof.
  apply list_compare_antisym.
  - apply string_compare_eq.
  - intros x y. apply String.compare_antisym.
Qed.

Lemma parts_compare_trans (p q r : parts) (c : comparison) :
  parts_compare p q = c -> parts_compare q r = c -> parts_compare p r = c.
Proof.
  apply list_compare_trans.
  - apply string_compare_eq.
  - apply string_compare_trans.
  - intros x y. apply String.compare_antisym.
Qed.

Lemma parts_compare_eq (p q : parts) : parts_compare p q = Eq <-> p = q.
Proof. apply list_compare_refl, string_compare_eq. Qed.

Lemma parts_leb_total (p q : parts) : parts_leb p q = true \/ parts_leb q p = true.
Proof.
  unfold parts_leb. rewrite (parts_compare_antisym p q).
  destruct (parts_compare p q); simpl; auto.
Qed.

Lemma parts_leb_trans (p q r : parts) :
  parts_leb p q = true -> parts_leb q r = true -> parts_leb p r = true.
Proof.
  unfold parts_leb.
  destruct (parts_compare p q) eqn:Epq; try discriminate;
    destruct (parts_compare q r) eqn:Eqr; try discriminate; intros _ _.
  - apply parts_compare_eq in Epq; subst. now rewrite Eqr.
  - apply parts_compare_eq in Epq; subst. now rewrite Eqr.
  - apply parts_compare_eq in Eqr; subst. now rewrite Epq.
  - now rewrite (parts_compare_trans _ _ _ _ Epq Eqr).
Qed.

Section SortedFacts.
Variable A : Type.
Variable leb : A -> A -> bool.
Hypothesis leb_total : forall a b, leb a b = true \/ leb b a = true.
Hypothesis leb_trans : forall a b c, leb a b = true -> leb b c = true -> leb a c = true.

Let le (a b : A) : Prop := leb a b = true.

Lemma insert_sorted_perm (x : A) (l : list A) :
  Permutation (insert_sorted leb x l) (x :: l).
Proof.
  induction l as [|y l IH]; simpl; [reflexivity|].
  destruct (leb x y); [reflexivity|].
  rewrite IH. apply perm_swap.
Qed.

Lemma sorted_perm (l : list A) : Permutation (sorted leb l) l.
Proof.
  induction l as [|x l IH]; simpl; [reflexivity|].
  rewrite insert_sorted_perm. now constructor.
Qed.

Lemma insert_sorted_sorted (x : A) (l : list A) :
  StronglySorted le l -> StronglySorted le (insert_sorted leb x l).
Proof.
  induction 1 as [|y l Hs IH Hy]; simpl.
  - repeat constructor.
  - destruct (leb x y) eqn:Exy.
    + constructor; [now constructor|].
      constructor; [exact Exy|].
      eapply Forall_impl; [|exact Hy]. intros z Hz. now apply leb_trans with y.
    + constructor; [exact IH|].
      rewrite (Forall_forall). intros z Hz.
      apply (Permutation_in _ (insert_sorted_perm x l)) in Hz.
      destruct Hz as [<-|Hz].
      * destruct (leb_total x y) as [H|H]; [congruence|exact H].
      * rewrite Forall_forall in Hy. now apply Hy.
Qed.

Lemma sorted_sorted (l : list A) : StronglySorted le (sorted leb l).
Proof.
  induction l as [|x l IH]; simpl; [constructor|].
  now apply insert_sorted_sorted.
Qed.
End SortedFacts.

Lemma by_path_total (a b : parts * node) : by_path a b = true \/ by_path b a = true.
Proof. apply parts_leb_total. Qed.

Lemma by_path_trans (a b c : parts * node) :
  by_path a b = true -> by_path b c = true -> by_path a c = true.
Proof. apply parts_leb_trans. Qed.

Lemma StronglySorted_filter {A} (R : A -> A -> Prop) (f : A -> bool) (l : list A) :
  StronglySorted R l -> StronglySorted R (filter f l).
Proof.
  induction 1 as [|a l Hs IH Ha]; cbn; [constructor|].
  destruct (f a); [|exact IH].
  constructor; [exact IH|].
  rewrite Forall_forall in *. intros x Hx. apply Ha.
  now apply filter_In in Hx.
Qed.

Lemma In_firstn {A} (n : nat) (l : list A) (x : A) :
  In x (firstn n l) -> In x l.
Proof.
  revert l. induction n as [|n IH]; intros [|a l]; cbn; try tauto.
  intros [->|H]; [now left | right; now apply IH].
Qed.

Lemma StronglySorted_firstn {A} (R : A -> A -> Prop) (n : nat) (l : list A) :
  StronglySorted R l -> StronglySorted R (firstn n l).
Proof.
  intros H. revert n.
  induction H as [|a l Hs IH Ha]; intros [|n]; cbn; try constructor.
  - apply IH.
  - rewrite Forall_forall in *. intros x Hx. apply Ha.
    now apply In_firstn in Hx.
Qed.

Lemma StronglySorted_map_fst (l : list (parts * node)) :
  StronglySorted (fun a b => by_path a b = true) l ->
  StronglySorted parts_le (map fst l).
Proof.
  induction 1 as [|a l Hs IH Ha]; cbn; constructor; [exact IH|].
  rewrite Forall_map. exact Ha.
Qed.

(** What [sorted] yields is ordered by path. *)
Lemma sorted_by_path_sorted (l : list (parts * node)) :
  StronglySorted (fun a b => by_path a b = true) (sorted by_path l).
Proof. apply sorted_sorted; [exact by_path_total | exact by_path_trans]. Qed.

Lemma Permutation_filter {A} (f : A -> bool) (l l' : list A) :
  Permutation l l' -> Permutation (filter f l) (filter f l').
Proof.
  induction 1 as [|x l l' Hp IH|x y l|l l' l'' H1 IH1 H2 IH2]; cbn.
  - constructor.
  - destruct (f x); [now constructor | exact IH].
  - destruct (f x), (f y); try reflexivity. apply perm_swap.
  - now transitivity (filter f l').
Qed.

(* ================================================================== *)
(** * The listing loops in closed form *)
(* ================================================================== *)

Lemma in_names_In (s : string) (l : list string) :
  in_names s l = true <-> In s l.
Proof.
  unfold in_names. rewrite existsb_exists. split.
  - intros [x [Hx Heq]]. apply String.eqb_eq in Heq. now subst.
  - intros H. exists s. split; [exact H | apply String.eqb_refl].
Qed.

Lemma ls_tree_loop_spec (max_entries : nat) (ps : list (parts * node)) :
  forall entries : list string,
    List.length entries < max_entries ->
    ls_tree_loop max_entries ps entries =
      let kept := map shown (filter keep ps) in
      if List.length entries + List.length kept <? max_entries
      then entries ++ kept
      else entries ++ firstn (max_entries - List.length entries) kept
                   ++ [truncated_marker].
Proof.
  induction ps as [|[rel p] rest IH]; intros entries Hlt; cbn [ls_tree_loop].
  - cbn [filter map List.length]. cbn zeta. rewrite Nat.add_0_r, app_nil_r.
    apply Nat.ltb_lt in Hlt. now rewrite Hlt.
  - cbn [filter].
    replace (keep (rel, p)) with (negb (excluded rel) && negb (is_dir p))
      by reflexivity.
    destruct (excluded rel); cbn [negb andb]; [now apply IH|].
    destruct (is_dir p); cbn [negb]; [now apply IH|].
    cbn zeta. cbn [map List.length].
    replace (shown (rel, p)) with (str_path rel) by reflexivity.
    rewrite length_app. cbn [List.length].
    destruct (Nat.leb max_entries (List.length entries + 1)) eqn:Hfull.
    + apply Nat.leb_le in Hfull.
      replace (List.length entries + S _ <? max_entries) with false
        by (symmetry; apply Nat.ltb_ge; lia).
      replace (max_entries - List.length entries) with 1 by lia.
      cbn [firstn]. now rewrite <- app_assoc.
    + apply Nat.leb_gt in Hfull.
      rewrite IH by (rewrite length_app; cbn; lia).
      cbn zeta. rewrite length_app. cbn [List.length].
      replace (List.length entries + 1 + List.length (map shown (filter keep rest)))
        with (List.length entries + S (List.length (map shown (filter keep rest))))
        by lia.
      destruct (_ <? max_entries).
      * now rewrite <- app_assoc.
      * replace (max_entries - List.length entries)
          with (S (max_entries - (List.length entries + 1))) by lia.
        cbn [firstn]. now rewrite <- !app_assoc.
Qed.

Lemma ls_tree_entries_spec (max_entries : nat) (found : list (parts * node)) :
  0 < max_entries ->
  ls_tree_entries max_entries found =
    let kept := map shown (filter keep (sorted by_path found)) in
    if List.length kept <? max_entries then kept
    else firstn max_entries kept ++ [truncated_marker].
Proof.
  intros Hpos. unfold ls_tree_entries.
  rewrite ls_tree_loop_spec by exact Hpos.
  cbn. now rewrite Nat.sub_0_r.
Qed.

Lemma out_files_loop_spec (ps : list (parts * node)) :
  forall out_files : list string,
    List.length out_files < 120 ->
    out_files_loop ps out_files =
      let kept := map shown (filter file_entry ps) in
      if List.length out_files + List.length kept <? 120
      then out_files ++ kept
      else out_files ++ firstn (120 - List.length out_files) kept
                     ++ [truncated_marker].
Proof.
  induction ps as [|[rel p] rest IH]; intros out Hlt; cbn [out_files_loop].
  - cbn [filter map List.length]. cbn zeta. rewrite Nat.add_0_r, app_nil_r.
    apply Nat.ltb_lt in Hlt. now rewrite Hlt.
  - cbn [filter].
    replace (file_entry (rel, p)) with (is_file p) by reflexivity.
    destruct (is_file p); cbn zeta.
    + cbn [map List.length].
      replace (shown (rel, p)) with (str_path rel) by reflexivity.
      rewrite length_app. cbn [List.length].
      destruct (Nat.leb 120 (List.length out + 1)) eqn:Hfull.
      * apply Nat.leb_le in Hfull.
        replace (List.length out + S _ <? 120) with false
          by (symmetry; apply Nat.ltb_ge; lia).
        replace (120 - List.length out) with 1 by lia.
        cbn [firstn]. now rewrite <- app_assoc.
      * apply Nat.leb_gt in Hfull.
        rewrite IH by (rewrite length_app; cbn; lia).
        cbn zeta. rewrite length_app. cbn [List.length].
        replace (List.length out + 1 + List.length (map shown (filter file_entry rest)))
          with (List.length out + S (List.length (map shown (filter file_entry rest))))
          by lia.
        destruct (_ <? 120).
        -- now rewrite <- app_assoc.
        -- replace (120 - List.length out)
             with (S (120 - (List.length out + 1))) by lia.
           cbn [firstn]. now rewrite <- !app_assoc.
    + replace (Nat.leb 120 (List.length out)) with false
        by (symmetry; apply Nat.leb_gt; exact Hlt).
      now apply IH.
Qed.

Lemma publish_entries_spec (found : list (parts * node)) :
  publish_entries found =
    let kept := map shown (filter file_entry (sorted by_path found)) in
    if List.length kept <? 120 then kept
    else firstn 120 kept ++ [truncated_marker].
Proof.
  unfold publish_entries.
  rewrite out_files_loop_spec by (cbn; lia).
  cbn. reflexivity.
Qed.

(* ================================================================== *)
(** * Running the monad *)
(* ================================================================== *)

Lemma bind_run {A B} (m : M A) (k : A -> M B) (s s1 : state) (a : A) :
  m s = (Ret a, s1) -> bind m k s = k a s1.
Proof. intros H. unfold bind. now rewrite H. Qed.

Lemma bind_assoc {A B C} (m : M A) (f : A -> M B) (g : B -> M C) (s : state) :
  bind (bind m f) g s = bind m (fun x => bind (f x) g) s.
Proof.
  unfold bind. destruct (m s) as [[a|c|e] s1]; try reflexivity.
Qed.

Lemma add_events_app (s : state) (a b : list event) :
  add_events (add_events s a) b = add_events s (a ++ b).
Proof. unfold add_events. cbn. now rewrite app_assoc. Qed.

Lemma exit_status_sys_exit {A} (c : Z) :
  (0 <= c < 256)%Z -> exit_status (@SysExit A c) = c.
Proof. intros H. cbn. now apply Z.mod_small. Qed.

Lemma print_run (args : list pyval) (s : state) :
  print args s = (Ret tt, add_events s [Print args]).
Proof. reflexivity. Qed.

Lemma hr_run (title : string) (s : state) :
  hr title s = (Ret tt, add_events s (hr_events title)).
Proof.
  unfold hr, hr_events, bind. rewrite !print_run, !add_events_app. reflexivity.
Qed.

(* ================================================================== *)
(** * The recursive listing *)
(* ================================================================== *)

Lemma StronglySorted_impl {A} (R R' : A -> A -> Prop) :
  (forall a b, R a b -> R' a b) ->
  forall l, StronglySorted R l -> StronglySorted R' l.
Proof.
  intros HR l H. induction H as [|a l Hs IH Ha]; constructor; [exact IH|].
  eapply Forall_impl; [|exact Ha]. intros b. apply HR.
Qed.

Lemma parts_le_not_gt (p q : parts) :
  parts_le p q -> list_compare String.compare p q <> Gt.
Proof.
  unfold parts_le, parts_leb, parts_compare.
  destruct (list_compare String.compare p q); congruence.
Qed.

(** C6.  For every directory the recursive listing of [ls_tree] is the
    rendering of a list of paths, possibly followed by the line
    [... (truncated)]; the first segment of a listed path is none of
    [node_modules], [.git], [.cache], [dist], [build], [.next]; the
    listed paths are in lexicographic order, segment by segment and
    each segment character by character (no path compares greater than
    one listed after it); and every listed path is an entry below the
    directory. *)
Theorem ls_tree_skips_excluded_and_is_ordered :
  forall (s : state) (path : parts),
  exists (listed : list parts) (tail : list string),
    ls_tree path 250 s
    = (Ret tt, add_events s
                 [Print [PStr (ls_tree_text (map str_path listed ++ tail))]])
    /\ (tail = [] \/ tail = ["... (truncated)"])
    /\ (forall seg rest,
           In (seg :: rest) listed ->
           seg <> "node_modules" /\ seg <> ".git" /\ seg <> ".cache"
           /\ seg <> "dist" /\ seg <> "build" /\ seg <> ".next")
    /\ StronglySorted (fun p q => list_compare String.compare p q <> Gt) listed
    /\ StronglySorted parts_le listed
    /\ (forall rel, In rel listed -> In rel (map fst (rglob_at (st_world s) path))).
Proof.
  intros s path.
  set (found := rglob_at (st_world s) path).
  set (kept := filter keep (sorted by_path found)).
  exists (map fst (firstn 250 kept)).
  exists (if List.length (map shown kept) <? 250 then [] else [truncated_marker]).
  assert (Hin : forall rel, In rel (map fst (firstn 250 kept)) ->
                exists n, In (rel, n) found /\ keep (rel, n) = true).
  { intros rel Hrel. apply in_map_iff in Hrel. destruct Hrel as [[rel' n] [<- Hx]].
    apply In_firstn in Hx. apply filter_In in Hx. destruct Hx as [Hx Hk].
    exists n. split; [|exact Hk].
    eapply Permutation_in; [apply sorted_perm|exact Hx]. }
  assert (Hsorted : StronglySorted parts_le (map fst (firstn 250 kept))).
  { apply StronglySorted_map_fst, StronglySorted_firstn, StronglySorted_filter.
    apply sorted_by_path_sorted. }
  split; [|split; [|split; [|split; [|split]]]].
  - unfold ls_tree, bind, get_world. rewrite print_run. fold found.
    rewrite ls_tree_entries_spec by lia. cbn zeta. fold kept.
    do 4 f_equal.
    destruct (List.length (map shown kept) <? 250) eqn:Hlen.
    + rewrite app_nil_r, firstn_all2, map_map; [reflexivity|].
      apply Nat.ltb_lt in Hlen. rewrite length_map in Hlen. lia.
    + now rewrite firstn_map, map_map.
  - destruct (_ <? 250); [left | right]; reflexivity.
  - intros seg rest Hrel. apply Hin in Hrel. destruct Hrel as [n [_ Hk]].
    unfold keep in Hk. cbn [fst snd excluded] in Hk.
    apply andb_prop in Hk. destruct Hk as [Hk _].
    repeat split; intros ->; discriminate Hk.
  - exact (StronglySorted_impl _ _ parts_le_not_gt _ Hsorted).
  - exact Hsorted.
  - intros rel Hrel. apply Hin in Hrel. destruct Hrel as [n [Hf _]].
    apply in_map_iff. now exists (rel, n).
Qed.

(** The order is that of the paths, not of the printed lines: a name
    that continues another one with a character below the separator
    sorts after it as a path and before it as text. *)
Example path_order_is_not_text_order :
  parts_leb ["a"; "y"] ["a-b"; "x"] = true
  /\ String.leb (str_path ["a"; "y"]) (str_path ["a-b"; "x"]) = false.
Proof. split; reflexivity. Qed.

Lemma filter_sorted_length {A} (leb : A -> A -> bool) (f : A -> bool) (l : list A) :
  List.length (filter f (sorted leb l)) = List.length (filter f l).
Proof. apply Permutation_length, Permutation_filter, sorted_perm. Qed.

(** Below the bound everything is listed and nothing is appended. *)
Lemma ls_tree_below_bound (found : list (parts * node)) :
  List.length (filter keep found) < 250 ->
  ls_tree_entries 250 found = map shown (filter keep (sorted by_path found)).
Proof.
  intros Hlt. rewrite ls_tree_entries_spec by lia. cbn zeta.
  rewrite length_map, filter_sorted_length.
  apply Nat.ltb_lt in Hlt. now rewrite Hlt.
Qed.

(** From the bound on, the first 250 are listed and the marker follows,
    whether or not anything was left out. *)
Lemma ls_tree_from_bound (found : list (parts * node)) :
  250 <= List.length (filter keep found) ->
  ls_tree_entries 250 found
  = firstn 250 (map shown (filter keep (sorted by_path found))) ++ [truncated_marker].
Proof.
  intros Hge. rewrite ls_tree_entries_spec by lia. cbn zeta.
  rewrite length_map, filter_sorted_length.
  apply Nat.ltb_ge in Hge. now rewrite Hge.
Qed.

(** C5.  A directory of exactly 250 listable files: all 250 are listed,
    none is left out, and the truncation marker is appended all the
    same. *)
Theorem ls_tree_marks_exactly_250_files :
  List.length (filter keep (rglob (Dir (flat_dir 250)))) = 250
  /\ ls_tree_entries 250 (rglob (Dir (flat_dir 250)))
     = map shown (filter keep (sorted by_path (rglob (Dir (flat_dir 250)))))
       ++ [truncated_marker].
Proof. split; vm_compute; reflexivity. Qed.

(* ================================================================== *)
(** * The top-level listing *)
(* ================================================================== *)

Lemma insert_sorted_map {A B} (f : A -> B) (leA : A -> A -> bool) (leB : B -> B -> bool) :
  (forall a b, leB (f a) (f b) = leA a b) ->
  forall x l, insert_sorted leB (f x) (map f l) = map f (insert_sorted leA x l).
Proof.
  intros Hf x l. induction l as [|y l IH]; cbn; [reflexivity|].
  rewrite Hf. destruct (leA x y); cbn; [reflexivity|]. now rewrite IH.
Qed.

Lemma sorted_map {A B} (f : A -> B) (leA : A -> A -> bool) (leB : B -> B -> bool) :
  (forall a b, leB (f a) (f b) = leA a b) ->
  forall l, sorted leB (map f l) = map f (sorted leA l).
Proof.
  intros Hf l. induction l as [|x l IH]; cbn; [reflexivity|].
  rewrite IH. now apply insert_sorted_map.
Qed.

Lemma parts_leb_single (x y : string) : parts_leb [x] [y] = String.leb x y.
Proof.
  unfold parts_leb, parts_compare, String.leb. cbn.
  destruct (String.compare x y); reflexivity.
Qed.

(** C8, as the code has it.  The top-level listing is the names of the
    entries of the root, in order, cut off after the first 80: it has
    at most 80 names and nothing is appended to it. *)
Theorem top_level_names_first_80 :
  forall ch : list (string * node),
    top_level_names ch = firstn 80 (sorted String.leb (map fst ch))
    /\ List.length (top_level_names ch) = Nat.min 80 (List.length ch).
Proof.
  intros ch.
  assert (H : top_level_names ch = firstn 80 (sorted String.leb (map fst ch))).
  { unfold top_level_names, iterdir_children. f_equal.
    rewrite (sorted_map (fun kc : string * node => ([fst kc], snd kc))
               (fun a b => String.leb (fst a) (fst b)) by_path)
      by (intros a b; apply parts_leb_single).
    rewrite map_map. cbn.
    symmetry. apply (sorted_map fst). reflexivity. }
  split; [exact H|].
  rewrite H, length_firstn. f_equal.
  rewrite (Permutation_length (sorted_perm _ String.leb (map fst ch))).
  apply length_map.
Qed.

(** C8, as claimed, fails: of 81 entries the listing shows 80 names and
    no truncation marker. *)
Lemma top_level_listing_has_no_marker :
  List.length (flat_dir 81) = 81
  /\ List.length (top_level_names (flat_dir 81)) = 80
  /\ ~ In truncated_marker (top_level_names (flat_dir 81)).
Proof.
  repeat split; try (vm_compute; reflexivity).
  intros H. apply in_names_In in H. vm_compute in H. discriminate.
Qed.

(* ================================================================== *)
(** * The install strategy *)
(* ================================================================== *)


(* ================================================================== *)
(** * The process executor *)
(* ================================================================== *)

(** C4, as the code has it.  For every call of [run] in which
    [subprocess.run] returns, the child having ended with exit code [rc]
    and output [out]: with fail-fast on and [rc] non-zero, [run] prints
    the echo line, the output, then a banner that is a newline, the
    text [!! Command failed (exit=], [rc] in decimal, the text [): ] and
    the words of the command joined by blanks, and it exits the run
    with [rc]; with fail-fast off it prints no banner and returns
    [(rc, out)] whatever [rc] is. *)
Theorem run_fail_fast :
  forall (spawn : list string -> string -> world -> spawn_result)
         (cmd : list string) (cwd : string) (s : state)
         (rc : Z) (out : string) (w' : world),
    spawn cmd cwd (st_world s) = Spawned rc out w' ->
    (rc <> 0%Z ->
     run spawn cmd cwd true s
     = (SysExit rc,
        {| st_world := w';
           st_trace := st_trace s ++
             [Print [PStr (String (ascii_of_nat 10) "$ "
                             ++ String.concat " " cmd
                             ++ "  (cwd=" ++ cwd ++ ")")%string];
              Spawn cmd cwd;
              Print [PStr out];
              Print [PStr (String (ascii_of_nat 10) "!! Command failed (exit="
                             ++ NilZero.string_of_int (Z.to_int rc)
                             ++ "): "
                             ++ String.concat " " cmd)%string]] |}))
    /\ run spawn cmd cwd false s
       = (Ret (rc, out),
          {| st_world := w';
             st_trace := st_trace s ++
               [Print [PStr (String (ascii_of_nat 10) "$ "
                               ++ String.concat " " cmd
                               ++ "  (cwd=" ++ cwd ++ ")")%string];
                Spawn cmd cwd;
                Print [PStr out]] |}).
Proof.
  intros spawn cmd cwd s rc out w' Hspawn.
  split; [intros Hrc|].
  - unfold run, subprocess_run, bind, print, emit, get_world, set_world, ret, sys_exit.
    cbn. rewrite Hspawn. cbn.
    destruct (Z.eqb_spec rc 0) as [->|_]; [contradiction|]. cbn.
    rewrite <- !app_assoc. reflexivity.
  - unfold run, subprocess_run, bind, print, emit, get_world, set_world, ret.
    cbn. rewrite Hspawn. cbn.
    rewrite <- !app_assoc. reflexivity.
Qed.

(** C4, as claimed, fails on a call in which [subprocess.run] does not
    return: a child that ends with the non-zero code 3 but whose output
    is not text makes [run], with fail-fast on, raise the decoding
    error; the run is not exited with code 3 and no line follows the
    echo line, so no banner is printed. *)
Lemma run_raises_on_undecodable_output :
  run garbled_child ["npm"; "ci"] demo_ROOT true (demo_state (Some (project "{}")))
  = (Raised (UnicodeDecodeError
               "'utf-8' codec can't decode byte 0xff in position 0: invalid start byte"),
     {| st_world := demo_world (Some (project "{}"));
        st_trace := [Print [PStr (String (ascii_of_nat 10)
                                    "$ npm ci  (cwd=/srv/app/frontend)")];
                     Spawn ["npm"; "ci"] demo_ROOT] |})
  /\ fst (run garbled_child ["npm"; "ci"] demo_ROOT true
               (demo_state (Some (project "{}"))))
     <> SysExit 3%Z.
Proof. split; [reflexivity | discriminate]. Qed.

Lemma run_fail_fast_witness :
  fst (run (demo_spawn 2 []) ["npm"; "install"] demo_ROOT true
           (demo_state (Some (project "{}"))))
  = SysExit 2%Z
  /\ In (Print [PStr (String (ascii_of_nat 10)
                        "!! Command failed (exit=2): npm install")])
        (st_trace (snd (run (demo_spawn 2 []) ["npm"; "install"] demo_ROOT true
                            (demo_state (Some (project "{}"))))))
  /\ fst (run (demo_spawn 2 []) ["npm"; "install"] demo_ROOT false
              (demo_state (Some (project "{}"))))
     = Ret (2%Z, "ok").
Proof.
  destruct (run_fail_fast (demo_spawn 2 []) ["npm"; "install"] demo_ROOT
              (demo_state (Some (project "{}"))) 2%Z "ok"
              (demo_world (Some (project "{}"))) eq_refl) as [H1 H2].
  split; [|split].
  - rewrite H1; [reflexivity | discriminate].
  - rewrite H1; [|discriminate]. cbn. tauto.
  - rewrite H2. reflexivity.
Defined.

(* ================================================================== *)
(** * The stages of [main] *)
(* ================================================================== *)

Lemma is_dir_at_exists (w : world) (p : parts) :
  is_dir_at w p = true -> exists_at w p = true.
Proof. unfold is_dir_at, exists_at. destruct (node_at w p); congruence. Qed.

Lemma found_candidates_eq (w : world) :
  found_candidates w
  = (if is_dir_at w ["dist"] then ["dist"] else [])
      ++ (if is_dir_at w ["build"] then ["build"] else [])
      ++ (if is_dir_at w [".next"] then [".next"] else []).
Proof.
  unfold found_candidates. cbn [filter].
  pose proof (is_dir_at_exists w ["dist"]) as Hd.
  pose proof (is_dir_at_exists w ["build"]) as Hb.
  pose proof (is_dir_at_exists w [".next"]) as Hn.
  destruct (is_dir_at w ["dist"]), (is_dir_at w ["build"]), (is_dir_at w [".next"]);
    rewrite ?Hd, ?Hb, ?Hn, ?andb_false_r by reflexivity; reflexivity.
Qed.

(** Splits a run at a stage boundary: every stage before it has to have
    returned. *)
Ltac split_run H :=
  repeat match type of H with
         | context [match ?m ?s with _ => _ end] =>
             let r := fresh "r" in
             let E := fresh "E" in
             destruct (m s) as [[?|?|?] r] eqn:E; cbn beta iota in H |- *;
             try discriminate H
         end.

Section Runs.

Variable ROOT : string.
Variable spawn : list string -> string -> world -> spawn_result.
Variable json_loads : string -> string + pyval.
Variable json_dumps : pyval -> string.

Lemma main_from_manifest (s s1 : state) :
  before_manifest ROOT spawn s = (Ret tt, s1) ->
  main ROOT spawn json_loads json_dumps s
  = from_manifest ROOT spawn json_loads json_dumps s1.
Proof.
  intros H. unfold main, before_manifest, bind in *.
  split_run H. rewrite H. reflexivity.
Qed.

Lemma main_after_build (s s2 : state) :
  through_build ROOT spawn json_loads json_dumps s = (Ret tt, s2) ->
  main ROOT spawn json_loads json_dumps s = after_build ROOT s2.
Proof.
  intros H. unfold main, through_build, before_manifest, bind in *.
  split_run H. rewrite H. reflexivity.
Qed.

(** Lines 81-92 in closed form. *)
Lemma load_manifest_run (s : state) :
  load_manifest ROOT json_loads s
  = match node_at (st_world s) ["package.json"] with
    | None =>
        (SysExit 3%Z,
         add_events s
           (hr_events "ERROR" ++
            [Print [PStr "package.json not found inside frontend/. Render Root Directory is likely wrong."]]))
    | Some (Dir _) =>
        (SysExit 4%Z,
         add_events s
           (hr_events "PACKAGE.JSON SUMMARY" ++
            [Print [PStr "Failed to parse package.json:";
                    PStr (child ROOT "package.json")]]))
    | Some (File text) =>
        match json_loads text with
        | inl msg =>
            (SysExit 4%Z,
             add_events s
               (hr_events "PACKAGE.JSON SUMMARY" ++
                [JsonLoads text;
                 Print [PStr "Failed to parse package.json:"; PStr msg]]))
        | inr v =>
            (Ret v,
             add_events s (hr_events "PACKAGE.JSON SUMMARY" ++ [JsonLoads text]))
        end
    end.
Proof.
  unfold load_manifest, bind, get_world, exists_at, try_except, read_text, loads.
  cbn beta iota zeta.
  destruct (node_at (st_world s) ["package.json"]) as [[text|ch]|] eqn:Hn; cbn.
  - rewrite Hn. cbn. destruct (json_loads text) as [msg|v]; cbn;
      unfold add_events; cbn; rewrite <- !app_assoc; reflexivity.
  - rewrite Hn. cbn. unfold add_events; cbn; rewrite <- !app_assoc; reflexivity.
  - unfold add_events; cbn; rewrite <- !app_assoc; reflexivity.
Qed.

(** Lines 133-153 in closed form. *)
Lemma locate_build_output_run (s : state) :
  locate_build_output ROOT s
  = let w := st_world s in
    let s1 :=
      add_events s
        (hr_events "LOCATE BUILD OUTPUT" ++
         [Print [PStr "Build output candidates found:";
                 PList (map PStr (found_candidates w))]]) in
    if is_dir_at w ["dist"] then
      (Ret ["dist"],
       add_events s1 [Print [PStr "Publish directory:"; PStr (child ROOT "dist")]])
    else if is_dir_at w ["build"] then
      (Ret ["build"],
       add_events s1 [Print [PStr "Publish directory:"; PStr (child ROOT "build")]])
    else
      (SysExit 5%Z,
       add_events s1
         ((if is_dir_at w [".next"] then
             [Print [PStr (nl ++ "NOTE: Detected .next. This is likely Next.js.")%string];
              Print [PStr "If you want Static Site: ensure `next export` is used and output is `out/`."]]
           else []) ++
          [Print [PStr (nl ++ "ERROR: No dist/ or build/ directory produced. Build succeeded but output folder missing.")%string]])).
Proof.
  unfold locate_build_output, bind, get_world. rewrite hr_run.
  cbn beta iota zeta. rewrite print_run, add_events_app.
  cbn [st_world add_events].
  rewrite !(found_candidates_eq (st_world s)).
  destruct (is_dir_at (st_world s) ["dist"]),
           (is_dir_at (st_world s) ["build"]),
           (is_dir_at (st_world s) [".next"]); cbn;
    unfold add_events; cbn; rewrite <- ?app_assoc; reflexivity.
Qed.

Lemma locate_build_output_world (s : state) :
  st_world (snd (locate_build_output ROOT s)) = st_world s.
Proof.
  rewrite locate_build_output_run. cbn zeta.
  destruct (is_dir_at (st_world s) ["dist"]); [reflexivity|].
  destruct (is_dir_at (st_world s) ["build"]); reflexivity.
Qed.

Lemma publish_listing_run (publish_dir : parts) (s : state) :
  publish_listing publish_dir s
  = (Ret tt,
     add_events s
       (hr_events "PUBLISH DIRECTORY LISTING (TOP)" ++
        [Print [PStr (publish_text
                        (publish_entries (rglob_at (st_world s) publish_dir)))]])).
Proof.
  unfold publish_listing, bind, get_world. rewrite hr_run.
  cbn beta iota zeta. now rewrite print_run, add_events_app.
Qed.

Lemma success_run (s : state) :
  success s
  = (Ret tt,
     add_events s
       (hr_events "SUCCESS" ++
        [Print [PStr "Frontend build diagnostics completed successfully."]])).
Proof.
  unfold success, bind. rewrite hr_run.
  cbn beta iota. now rewrite print_run, add_events_app.
Qed.

(** Once a publish directory is chosen the run goes to its end. *)
Lemma after_locate_run (s s3 : state) (d : parts) :
  locate_build_output ROOT s = (Ret d, s3) ->
  after_build ROOT s
  = (Ret tt,
     add_events s3
       (hr_events "PUBLISH DIRECTORY LISTING (TOP)" ++
        [Print [PStr (publish_text (publish_entries (rglob_at (st_world s) d)))]] ++
        hr_events "SUCCESS" ++
        [Print [PStr "Frontend build diagnostics completed successfully."]])).
Proof.
  intros H.
  pose proof (locate_build_output_world s) as Hw. rewrite H in Hw. cbn in Hw.
  unfold after_build, bind. rewrite H, publish_listing_run, success_run.
  rewrite add_events_app, Hw, <- app_assoc. reflexivity.
Qed.

(* ================================================================== *)
(** * The manifest *)
(* ================================================================== *)

(** C3.  Once the run has reached the manifest: if [package.json] is
    not there, the run exits with code 3 having only printed the error
    section, with no parse attempted; if it is a file that the JSON
    reader rejects, the run prints the reader's description of the
    failure and exits with code 4, with no command spawned. *)
Theorem manifest_missing_or_malformed :
  forall s s1 : state,
    before_manifest ROOT spawn s = (Ret tt, s1) ->
    (exists_at (st_world s1) ["package.json"] = false ->
     main ROOT spawn json_loads json_dumps s
     = (SysExit 3%Z,
        add_events s1
          (hr_events "ERROR" ++
           [Print [PStr "package.json not found inside frontend/. Render Root Directory is likely wrong."]])))
    /\ (forall text msg : string,
           node_at (st_world s1) ["package.json"] = Some (File text) ->
           json_loads text = inl msg ->
           main ROOT spawn json_loads json_dumps s
           = (SysExit 4%Z,
              add_events s1
                (hr_events "PACKAGE.JSON SUMMARY" ++
                 [JsonLoads text;
                  Print [PStr "Failed to parse package.json:"; PStr msg]]))).
Proof.
  intros s s1 Hpre.
  rewrite (main_from_manifest _ _ Hpre).
  unfold from_manifest, bind. rewrite load_manifest_run.
  split.
  - unfold exists_at. intros Hno.
    destruct (node_at (st_world s1) ["package.json"]); [discriminate | reflexivity].
  - intros text msg Hfile Hbad. now rewrite Hfile, Hbad.
Qed.


(* ================================================================== *)
(** * The build output *)
(* ================================================================== *)

(** C2.  After a build that succeeded: [dist] is the publish directory
    when it is a directory, otherwise [build] when that is one;
    with neither, the run exits with code 5 having printed the
    candidates, the advisory note exactly when [.next] is a directory,
    and the error line, and no listing section; [.next] is never the
    publish directory. *)
Theorem publish_directory_selection :
  forall s s2 : state,
    through_build ROOT spawn json_loads json_dumps s = (Ret tt, s2) ->
    let w := st_world s2 in
    (is_dir_at w ["dist"] = true ->
     fst (locate_build_output ROOT s2) = Ret ["dist"])
    /\ (is_dir_at w ["dist"] = false -> is_dir_at w ["build"] = true ->
        fst (locate_build_output ROOT s2) = Ret ["build"])
    /\ (is_dir_at w ["dist"] = false -> is_dir_at w ["build"] = false ->
        exists printed : list event,
          main ROOT spawn json_loads json_dumps s = (SysExit 5%Z, add_events s2 printed)
          /\ printed
             = hr_events "LOCATE BUILD OUTPUT" ++
               [Print [PStr "Build output candidates found:";
                       PList (map PStr (if is_dir_at w [".next"] then [".next"] else []))]] ++
               (if is_dir_at w [".next"] then
                  [Print [PStr (nl ++ "NOTE: Detected .next. This is likely Next.js.")%string];
                   Print [PStr "If you want Static Site: ensure `next export` is used and output is `out/`."]]
                else []) ++
               [Print [PStr (nl ++ "ERROR: No dist/ or build/ directory produced. Build succeeded but output folder missing.")%string]]
          /\ ~ In (Print [PStr "PUBLISH DIRECTORY LISTING (TOP)"]) printed)
    /\ fst (locate_build_output ROOT s2) <> Ret [".next"].
Proof.
  intros s s2 Hpre w. subst w.
  repeat split.
  - intros Hd. rewrite locate_build_output_run. cbn zeta. now rewrite Hd.
  - intros Hd Hb. rewrite locate_build_output_run. cbn zeta. now rewrite Hd, Hb.
  - intros Hd Hb. eexists. split; [|split; [reflexivity|]].
    + rewrite (main_after_build _ _ Hpre).
      unfold after_build, bind. rewrite locate_build_output_run. cbn zeta.
      rewrite Hd, Hb, add_events_app, found_candidates_eq, Hd, Hb.
      cbn [app]. rewrite <- app_assoc. reflexivity.
    + destruct (is_dir_at (st_world s2) [".next"]); cbn;
        intros H; repeat (destruct H as [H|H]; [discriminate H|]); exact H.
  - rewrite locate_build_output_run. cbn zeta.
    destruct (is_dir_at (st_world s2) ["dist"]); [discriminate|].
    destruct (is_dir_at (st_world s2) ["build"]); discriminate.
Qed.


(** C10.  A publish directory without a single file in it is no error:
    the listing section shows the placeholder for an empty output and
    the run ends normally, exit status 0. *)
Theorem empty_publish_dir_is_success :
  forall (s s2 : state) (d : parts),
    through_build ROOT spawn json_loads json_dumps s = (Ret tt, s2) ->
    fst (locate_build_output ROOT s2) = Ret d ->
    filter file_entry (rglob_at (st_world s2) d) = [] ->
    main ROOT spawn json_loads json_dumps s
    = (Ret tt,
       add_events (snd (locate_build_output ROOT s2))
         (hr_events "PUBLISH DIRECTORY LISTING (TOP)" ++
          [Print [PStr "(empty output dir)"]] ++
          hr_events "SUCCESS" ++
          [Print [PStr "Frontend build diagnostics completed successfully."]]))
    /\ exit_status (fst (main ROOT spawn json_loads json_dumps s)) = 0%Z.
Proof.
  intros s s2 d Hpre Hloc Hempty.
  assert (Hmain : main ROOT spawn json_loads json_dumps s
    = (Ret tt,
       add_events (snd (locate_build_output ROOT s2))
         (hr_events "PUBLISH DIRECTORY LISTING (TOP)" ++
          [Print [PStr "(empty output dir)"]] ++
          hr_events "SUCCESS" ++
          [Print [PStr "Frontend build diagnostics completed successfully."]]))).
  { rewrite (main_after_build _ _ Hpre).
    destruct (locate_build_output ROOT s2) as [r s3] eqn:Hrun.
    cbn in Hloc. subst r.
    rewrite (after_locate_run _ _ _ Hrun).
    pose proof (filter_sorted_length by_path file_entry
                  (rglob_at (st_world s2) d)) as Hlen.
    rewrite Hempty in Hlen. cbn in Hlen.
    rewrite publish_entries_spec. cbn zeta.
    destruct (filter file_entry (sorted by_path (rglob_at (st_world s2) d)));
      [reflexivity | discriminate Hlen]. }
  split; [exact Hmain | now rewrite Hmain].
Qed.

End Runs.

(* ================================================================== *)
(** * The theorems at work on concrete runs *)
(* ================================================================== *)

Lemma manifest_missing_or_malformed_witness :
  fst (main demo_ROOT (demo_spawn 0 dist3) demo_loads demo_dumps
            (demo_state (Some (Dir [("README.md", File "")]))))
  = SysExit 3%Z
  /\ fst (main demo_ROOT (demo_spawn 0 dist3) demo_loads demo_dumps
               (demo_state (Some (project "{"))))
     = SysExit 4%Z.
Proof.
  split.
  - assert (Hpre : before_manifest demo_ROOT (demo_spawn 0 dist3)
                     (demo_state (Some (Dir [("README.md", File "")])))
                   = (Ret tt,
                      snd (before_manifest demo_ROOT (demo_spawn 0 dist3)
                             (demo_state (Some (Dir [("README.md", File "")]))))))
      by (vm_compute; reflexivity).
    pose proof (manifest_missing_or_malformed demo_ROOT (demo_spawn 0 dist3)
                  demo_loads demo_dumps _ _ Hpre) as [H _].
    rewrite H; [reflexivity | vm_compute; reflexivity].
  - assert (Hpre : before_manifest demo_ROOT (demo_spawn 0 dist3)
                     (demo_state (Some (project "{")))
                   = (Ret tt,
                      snd (before_manifest demo_ROOT (demo_spawn 0 dist3)
                             (demo_state (Some (project "{"))))))
      by (vm_compute; reflexivity).
    pose proof (manifest_missing_or_malformed demo_ROOT (demo_spawn 0 dist3)
                  demo_loads demo_dumps _ _ Hpre) as [_ H].
    rewrite (H "{" "Expecting value: line 1 column 1 (char 0)");
      [reflexivity | vm_compute; reflexivity | vm_compute; reflexivity].
Defined.



Lemma publish_directory_selection_witness :
  fst (main demo_ROOT (demo_spawn 0 next_only) demo_loads demo_dumps
            (demo_state (Some (project "{}"))))
  = SysExit 5%Z.
Proof.
  assert (Hpre : through_build demo_ROOT (demo_spawn 0 next_only) demo_loads demo_dumps
                   (demo_state (Some (project "{}")))
                 = (Ret tt,
                    snd (through_build demo_ROOT (demo_spawn 0 next_only)
                           demo_loads demo_dumps
                           (demo_state (Some (project "{}"))))))
    by (vm_compute; reflexivity).
  pose proof (publish_directory_selection demo_ROOT (demo_spawn 0 next_only)
                demo_loads demo_dumps _ _ Hpre) as [_ [_ [H _]]].
  destruct H as [printed [Hmain _]].
  - vm_compute; reflexivity.
  - vm_compute; reflexivity.
  - rewrite Hmain. reflexivity.
Defined.


Lemma empty_publish_dir_is_success_witness :
  exit_status (fst (main demo_ROOT (demo_spawn 0 empty_dist) demo_loads demo_dumps
                         (demo_state (Some (project "{}")))))
  = 0%Z.
Proof.
  assert (Hpre : through_build demo_ROOT (demo_spawn 0 empty_dist) demo_loads demo_dumps
                   (demo_state (Some (project "{}")))
                 = (Ret tt,
                    snd (through_build demo_ROOT (demo_spawn 0 empty_dist)
                           demo_loads demo_dumps
                           (demo_state (Some (project "{}"))))))
    by (vm_compute; reflexivity).
  pose proof (empty_publish_dir_is_success demo_ROOT (demo_spawn 0 empty_dist)
                demo_loads demo_dumps _ _ ["dist"] Hpre) as H.
  destruct H as [_ Hexit].
  - vm_compute; reflexivity.
  - vm_compute; reflexivity.
  - exact Hexit.
Defined.

(* ================================================================== *)
(** * Further properties: the listings *)
(* ================================================================== *)

(** X1.  Below the bound the recursive listing is complete: with fewer
    than 250 entries that are neither directories nor under an excluded
    name, the listing has exactly as many lines as there are such
    entries and the path of each of them is one of the lines. *)
Theorem ls_tree_complete_below_bound :
  forall found : list (parts * node),
    List.length (filter keep found) < 250 ->
    List.length (ls_tree_entries 250 found) = List.length (filter keep found)
    /\ (forall rel n,
           In (rel, n) found -> excluded rel = false -> is_dir n = false ->
           In (str_path rel) (ls_tree_entries 250 found)).
Proof.
  intros found Hlt. rewrite (ls_tree_below_bound found Hlt). split.
  - now rewrite length_map, filter_sorted_length.
  - intros rel n Hin Hex Hdir.
    apply (in_map shown _ (rel, n)). apply filter_In. split.
    + eapply Permutation_in; [apply Permutation_sym, sorted_perm | exact Hin].
    + unfold keep. cbn. now rewrite Hex, Hdir.
Qed.

Lemma ls_tree_complete_below_bound_witness :
  In "src/node_modules/x.js"
     (ls_tree_entries 250
        (rglob (Dir [("src", Dir [("node_modules", Dir [("x.js", File "")])]);
                     ("node_modules", Dir [("y.js", File "")])]))).
Proof.
  apply (ls_tree_complete_below_bound
           (rglob (Dir [("src", Dir [("node_modules", Dir [("x.js", File "")])]);
                        ("node_modules", Dir [("y.js", File "")])])))
    with (rel := ["src"; "node_modules"; "x.js"]) (n := File "").
  - vm_compute. lia.
  - vm_compute. tauto.
  - reflexivity.
  - reflexivity.
Defined.

(** X2.  From the bound on the recursive listing has 251 lines: the
    first 250 listable entries in path order, then the truncation
    marker. *)
Theorem ls_tree_cut_at_bound :
  forall found : list (parts * node),
    250 <= List.length (filter keep found) ->
    List.length (ls_tree_entries 250 found) = 251
    /\ last (ls_tree_entries 250 found) "" = truncated_marker
    /\ firstn 250 (ls_tree_entries 250 found)
       = map shown (firstn 250 (filter keep (sorted by_path found))).
Proof.
  intros found Hge. rewrite (ls_tree_from_bound found Hge).
  assert (Hlen : List.length
                   (firstn 250 (map shown (filter keep (sorted by_path found)))) = 250).
  { rewrite length_firstn, length_map, filter_sorted_length. lia. }
  repeat split.
  - rewrite length_app, Hlen. reflexivity.
  - apply last_last.
  - rewrite firstn_app, Hlen, Nat.sub_diag, firstn_O, app_nil_r.
    rewrite firstn_all2 by lia. apply firstn_map.
Qed.

Lemma ls_tree_cut_at_bound_witness :
  List.length (ls_tree_entries 250 (rglob (Dir (flat_dir 251)))) = 251.
Proof.
  apply (ls_tree_cut_at_bound (rglob (Dir (flat_dir 251)))).
  vm_compute. lia.
Defined.

(** X19.  Nothing to list: when no entry below the path is listable
    (the path is missing or empty, or holds only directories and
    entries under excluded names), [ls_tree] prints the placeholder
    line and nothing else. *)
Theorem ls_tree_placeholder :
  forall (s : state) (path : parts),
    filter keep (rglob_at (st_world s) path) = [] ->
    ls_tree path 250 s
    = (Ret tt, add_events s [Print [PStr "(no files found)"]]).
Proof.
  intros s path Hnone.
  unfold ls_tree, bind, get_world. rewrite print_run.
  rewrite ls_tree_below_bound by (rewrite Hnone; cbn; lia).
  pose proof (filter_sorted_length by_path keep (rglob_at (st_world s) path)) as Hlen.
  rewrite Hnone in Hlen. cbn in Hlen.
  destruct (filter keep (sorted by_path (rglob_at (st_world s) path)));
    [reflexivity | discriminate Hlen].
Qed.

Lemma ls_tree_placeholder_witness :
  fst (ls_tree [] 250
         (demo_state (Some (Dir [("node_modules", Dir [("y.js", File "")]);
                                 ("src", Dir [])]))))
  = Ret tt.
Proof.
  rewrite (ls_tree_placeholder
             (demo_state (Some (Dir [("node_modules", Dir [("y.js", File "")]);
                                     ("src", Dir [])]))) []).
  - reflexivity.
  - vm_compute. reflexivity.
Defined.

(** X3.  The publish listing of lines 155-162: with fewer than 120
    files it is the paths of all the files in path order; otherwise the
    first 120 of them and the truncation marker.  Directories are never
    lines of it, and it never has more than 121 lines. *)
Theorem publish_entries_bounded :
  forall found : list (parts * node),
    let files := map shown (filter file_entry (sorted by_path found)) in
    publish_entries found
    = (if List.length (filter file_entry found) <? 120 then files
       else firstn 120 files ++ [truncated_marker])
    /\ List.length (publish_entries found) <= 121.
Proof.
  intros found files.
  assert (H : publish_entries found
              = (if List.length (filter file_entry found) <? 120 then files
                 else firstn 120 files ++ [truncated_marker])).
  { rewrite publish_entries_spec. cbn zeta. fold files.
    unfold files at 1. now rewrite length_map, filter_sorted_length. }
  split; [exact H|]. rewrite H.
  destruct (List.length (filter file_entry found) <? 120) eqn:Hlt.
  - apply Nat.ltb_lt in Hlt. unfold files.
    rewrite length_map, filter_sorted_length. lia.
  - rewrite length_app, length_firstn. cbn [List.length].
    pose proof (Nat.le_min_l 120 (List.length files)). lia.
Qed.

(* ================================================================== *)
(** * Further properties: the strategy, the executor, the report *)
(* ================================================================== *)

(** X4.  Whatever is selected, one tool both installs and builds: the
    two commands start with the same package manager, one of pnpm, yarn
    and npm, and the build command ends in [build]. *)
Theorem install_strategy_one_tool :
  forall (has_pnpm has_npm has_yarn : bool) (which_pnpm which_yarn : option string),
    let cmds := install_strategy has_pnpm has_npm has_yarn which_pnpm which_yarn in
    In (hd "" (fst cmds)) ["pnpm"; "yarn"; "npm"]
    /\ hd "" (snd cmds) = hd "" (fst cmds)
    /\ last (snd cmds) "" = "build".
Proof.
  intros has_pnpm has_npm has_yarn wp wy. unfold install_strategy.
  destruct (has_pnpm && truthy wp); [cbn; tauto|].
  destruct (has_yarn && truthy wy); [cbn; tauto|].
  destruct has_npm; cbn; tauto.
Qed.

(** X5.  With fail-fast on, a child that ends with exit code 0 is no
    failure: [run] prints the echo line and the output, no banner, and
    returns [(0, output)]. *)
Theorem run_returns_on_zero :
  forall (spawn : list string -> string -> world -> spawn_result)
         (cmd : list string) (cwd : string) (s : state)
         (out : string) (w' : world),
    spawn cmd cwd (st_world s) = Spawned 0%Z out w' ->
    run spawn cmd cwd true s
    = (Ret (0%Z, out),
       {| st_world := w';
          st_trace := st_trace s ++
            [Print [PStr (command_echo cmd cwd)]; Spawn cmd cwd; Print [PStr out]] |}).
Proof.
  intros spawn cmd cwd s out w' Hspawn.
  unfold run, subprocess_run, bind, print, emit, get_world, set_world, ret.
  cbn. rewrite Hspawn. cbn. rewrite <- !app_assoc. reflexivity.
Qed.

Lemma run_returns_on_zero_witness :
  fst (run (demo_spawn 0 []) ["npm"; "ci"] demo_ROOT true
           (demo_state (Some (project "{}"))))
  = Ret (0%Z, "ok").
Proof.
  rewrite (run_returns_on_zero (demo_spawn 0 []) ["npm"; "ci"] demo_ROOT
             (demo_state (Some (project "{}"))) "ok"
             (demo_world (Some (project "{}"))) eq_refl).
  reflexivity.
Defined.

(** X6.  A child that cannot be started: [run] has printed the echo line
    only, prints neither output nor banner, and the exception of
    [subprocess.run] goes on to the caller, with fail-fast on or off;
    the world is as it was. *)
Theorem run_raises_when_not_started :
  forall (spawn : list string -> string -> world -> spawn_result)
         (cmd : list string) (cwd : string) (check : bool) (s : state) (e : exn),
    spawn cmd cwd (st_world s) = SpawnFailed e ->
    run spawn cmd cwd check s
    = (Raised e,
       add_events s [Print [PStr (command_echo cmd cwd)]; Spawn cmd cwd]).
Proof.
  intros spawn cmd cwd check s e Hspawn.
  unfold run, subprocess_run, bind, print, emit, get_world, raise.
  cbn. rewrite Hspawn. unfold add_events. cbn.
  rewrite <- !app_assoc. reflexivity.
Qed.

Lemma run_raises_when_not_started_witness :
  fst (run (fun _ _ _ => SpawnFailed (FileNotFoundError "npm")) ["npm"; "ci"]
           demo_ROOT true (demo_state (Some (project "{}"))))
  = Raised (FileNotFoundError "npm").
Proof.
  rewrite (run_raises_when_not_started
             (fun _ _ _ => SpawnFailed (FileNotFoundError "npm")) ["npm"; "ci"]
             demo_ROOT true (demo_state (Some (project "{}")))
             (FileNotFoundError "npm") eq_refl).
  reflexivity.
Defined.

Lemma string_leb_total (a b : string) : String.leb a b = true \/ String.leb b a = true.
Proof. rewrite <- !parts_leb_single. apply parts_leb_total. Qed.

Lemma string_leb_trans (a b c : string) :
  String.leb a b = true -> String.leb b c = true -> String.leb a c = true.
Proof. rewrite <- !parts_leb_single. apply parts_leb_trans. Qed.

(** X7.  The environment dump shows names only: it prints one line, the
    names of all the environment variables in sorted order, and no
    value; the world is left as it is. *)
Theorem env_dump_sorted_names :
  forall s : state,
  exists keys : list string,
    safe_env_dump s
    = (Ret tt, add_events s [Print [PStr "ENV KEYS:"; PStr (String.concat ", " keys)]])
    /\ Permutation keys (map fst (w_environ (st_world s)))
    /\ StronglySorted (fun a b => String.leb a b = true) keys.
Proof.
  intros s. exists (sorted String.leb (map fst (w_environ (st_world s)))).
  split; [reflexivity|]. split.
  - apply sorted_perm.
  - apply sorted_sorted; [exact string_leb_total | exact string_leb_trans].
Qed.

(** X8.  The interpreter version is printed on one line: replacing the
    newlines keeps the length and leaves no newline, so that replacing
    again changes nothing. *)
Theorem replace_nl_single_line :
  forall v : string,
    contains_char (ascii_of_nat 10) (replace_nl v) = false
    /\ String.length (replace_nl v) = String.length v
    /\ replace_nl (replace_nl v) = replace_nl v.
Proof.
  induction v as [|c v [IH1 [IH2 IH3]]]; cbn [replace_nl contains_char String.length].
  - repeat split.
  - destruct (Ascii.eqb c (ascii_of_nat 10)) eqn:Ec.
    + repeat split.
      * rewrite IH1. reflexivity.
      * now rewrite IH2.
      * cbn [replace_nl]. rewrite IH3. reflexivity.
    + repeat split.
      * rewrite Ec, IH1. reflexivity.
      * now rewrite IH2.
      * cbn [replace_nl]. rewrite Ec, IH3. reflexivity.
Qed.

(* ================================================================== *)
(** * Exit codes and spawned children, stage by stage *)
(* ================================================================== *)

Lemma exits_ret {A} (P : Z -> Prop) (a : A) : exits_within P (ret a).
Proof. intros s c s' H. discriminate H. Qed.

Lemma exits_emit (P : Z -> Prop) (e : event) : exits_within P (emit e).
Proof. intros s c s' H. discriminate H. Qed.

Lemma exits_get_world (P : Z -> Prop) : exits_within P get_world.
Proof. intros s c s' H. discriminate H. Qed.

Lemma exits_set_world (P : Z -> Prop) (w : world) : exits_within P (set_world w).
Proof. intros s c s' H. discriminate H. Qed.

Lemma exits_raise {A} (P : Z -> Prop) (e : exn) : exits_within P (@raise A e).
Proof. intros s c s' H. discriminate H. Qed.

Lemma exits_sys_exit {A} (P : Z -> Prop) (c : Z) : P c -> exits_within P (@sys_exit A c).
Proof. intros Hc s c' s' H. injection H as <- _. exact Hc. Qed.

Lemma exits_bind {A B} (P : Z -> Prop) (m : M A) (k : A -> M B) :
  exits_within P m -> (forall a, exits_within P (k a)) -> exits_within P (bind m k).
Proof.
  intros Hm Hk s c s' H. unfold bind in H.
  destruct (m s) as [[a|c1|e] s1] eqn:Em.
  - exact (Hk a s1 c s' H).
  - injection H as <- _. exact (Hm s c1 s1 Em).
  - discriminate H.
Qed.

Lemma exits_try_except {A} (P : Z -> Prop) (body : M A) (handler : exn -> M A) :
  exits_within P body -> (forall e, exits_within P (handler e)) ->
  exits_within P (try_except body handler).
Proof.
  intros Hb Hh s c s' H. unfold try_except in H.
  destruct (body s) as [[a|c1|e] s1] eqn:Eb.
  - discriminate H.
  - injection H as <- _. exact (Hb s c1 s1 Eb).
  - exact (Hh e s1 c s' H).
Qed.

Lemma exits_for_each {A} (P : Z -> Prop) (l : list A) (body : A -> M unit) :
  (forall a, exits_within P (body a)) -> exits_within P (for_each l body).
Proof.
  intros Hb. induction l as [|x l IH]; cbn.
  - apply exits_ret.
  - apply exits_bind; [apply Hb | intros _; exact IH].
Qed.

Lemma count_spawns_app (a b : list event) :
  count_spawns (a ++ b) = count_spawns a + count_spawns b.
Proof.
  induction a as [|e a IH]; cbn; [reflexivity|].
  destruct e; cbn; now rewrite IH.
Qed.

Lemma spawned_in_app (cwd : string) (a b : list event) :
  spawned_in cwd a -> spawned_in cwd b -> spawned_in cwd (a ++ b).
Proof.
  intros Ha Hb cmd c Hin. apply in_app_or in Hin.
  destruct Hin; [now apply (Ha cmd) | now apply (Hb cmd)].
Qed.

(** Steps through the binds, branches and leaves of a stage. *)
Ltac exits_steps :=
  repeat first
    [ apply exits_ret | apply exits_emit | apply exits_get_world
    | apply exits_set_world | apply exits_raise
    | apply exits_bind; [|intros ?]
    | apply exits_for_each; intros ?
    | match goal with
      | |- exits_within _ (if ?b then _ else _) => destruct b
      | |- exits_within _ (match ?x with _ => _ end) => destruct x
      end ].

Section Accounting.

Variable ROOT : string.
Variable spawn : list string -> string -> world -> spawn_result.
Variable json_loads : string -> string + pyval.
Variable json_dumps : pyval -> string.

(** The non-zero exit code of some child started in [ROOT]. *)
Let child_code (c : Z) : Prop :=
  c <> 0%Z /\ exists cmd w out w', spawn cmd ROOT w = Spawned c out w'.

(** At most [n] children, all started in [ROOT]. *)
Let children (n : nat) (evs : list event) : Prop :=
  count_spawns evs <= n /\ spawned_in ROOT evs.

Lemma exits_hr (P : Z -> Prop) (title : string) : exits_within P (hr title).
Proof. unfold hr, print. exits_steps. Qed.

Lemma exits_run_unchecked (P : Z -> Prop) (cmd : list string) (cwd : string) :
  exits_within P (run spawn cmd cwd false).
Proof. unfold run, subprocess_run, print. cbn [andb]. exits_steps. Qed.

Lemma exits_run_checked (cmd : list string) :
  exits_within child_code (run spawn cmd ROOT true).
Proof.
  intros s c s' H.
  unfold run, subprocess_run, bind, print, emit, get_world, set_world, ret,
    sys_exit, raise in H. cbn in H.
  destruct (spawn cmd ROOT (st_world s)) as [rc out w'|rc msg w'|e] eqn:Hs;
    cbn in H; [|discriminate H|discriminate H].
  destruct (Z.eqb_spec rc 0) as [->|Hrc]; cbn in H; [discriminate H|].
  injection H as <- _. split; [exact Hrc|]. now exists cmd, (st_world s), out, w'.
Qed.

Lemma exits_weaken {A} (P Q : Z -> Prop) (m : M A) :
  (forall c, P c -> Q c) -> exits_within P m -> exits_within Q m.
Proof. intros HPQ Hm s c s' H. exact (HPQ c (Hm s c s' H)). Qed.

Lemma appends_weaken {A} (n t : nat) (m : M A) :
  n <= t -> appends (children n) m -> appends (children t) m.
Proof.
  intros Hle Hm s. destruct (Hm s) as [evs [Ht [Hc Hin]]].
  exists evs. repeat split; [exact Ht | lia | exact Hin].
Qed.

Lemma appends_bind {A B} (n k : nat) (m : M A) (f : A -> M B) :
  appends (children n) m -> (forall a, appends (children k) (f a)) ->
  appends (children (n + k)) (bind m f).
Proof.
  intros Hm Hf s. unfold bind.
  destruct (Hm s) as [e1 [Ht1 [Hc1 Hin1]]].
  destruct (m s) as [[a|c|e] s1]; cbn [snd] in *.
  - destruct (Hf a s1) as [e2 [Ht2 [Hc2 Hin2]]].
    exists (e1 ++ e2). repeat split.
    + now rewrite Ht2, Ht1, app_assoc.
    + rewrite count_spawns_app. lia.
    + now apply spawned_in_app.
  - exists e1. repeat split; [exact Ht1 | lia | exact Hin1].
  - exists e1. repeat split; [exact Ht1 | lia | exact Hin1].
Qed.

Lemma appends_try_except {A} (n k : nat) (body : M A) (handler : exn -> M A) :
  appends (children n) body -> (forall e, appends (children k) (handler e)) ->
  appends (children (n + k)) (try_except body handler).
Proof.
  intros Hb Hh s. unfold try_except.
  destruct (Hb s) as [e1 [Ht1 [Hc1 Hin1]]].
  destruct (body s) as [[a|c|e] s1]; cbn [snd] in *.
  - exists e1. repeat split; [exact Ht1 | lia | exact Hin1].
  - exists e1. repeat split; [exact Ht1 | lia | exact Hin1].
  - destruct (Hh e s1) as [e2 [Ht2 [Hc2 Hin2]]].
    exists (e1 ++ e2). repeat split.
    + now rewrite Ht2, Ht1, app_assoc.
    + rewrite count_spawns_app. lia.
    + now apply spawned_in_app.
Qed.

Lemma appends_nothing {A} (m : M A) :
  (forall s, snd (m s) = s) -> appends (children 0) m.
Proof.
  intros H s. exists []. rewrite H, app_nil_r. repeat split.
  - cbn. lia.
  - intros cmd c [].
Qed.

Lemma appends_ret {A} (a : A) : appends (children 0) (ret a).
Proof. now apply appends_nothing. Qed.

Lemma appends_get_world : appends (children 0) get_world.
Proof. now apply appends_nothing. Qed.

Lemma appends_raise {A} (e : exn) : appends (children 0) (@raise A e).
Proof. now apply appends_nothing. Qed.

Lemma appends_sys_exit {A} (c : Z) : appends (children 0) (@sys_exit A c).
Proof. now apply appends_nothing. Qed.

Lemma appends_set_world (w : world) : appends (children 0) (set_world w).
Proof.
  intros s. exists []. cbn. rewrite app_nil_r. repeat split.
  - cbn. lia.
  - intros cmd c [].
Qed.

Lemma appends_print (args : list pyval) : appends (children 0) (print args).
Proof.
  intros s. exists [Print args]. repeat split.
  - cbn. lia.
  - intros cmd c [H|[]]. discriminate H.
Qed.

Lemma appends_loads_event (text : string) : appends (children 0) (emit (JsonLoads text)).
Proof.
  intros s. exists [JsonLoads text]. repeat split.
  - cbn. lia.
  - intros cmd c [H|[]]. discriminate H.
Qed.

Lemma appends_spawn_event (cmd : list string) :
  appends (children 1) (emit (Spawn cmd ROOT)).
Proof.
  intros s. exists [Spawn cmd ROOT]. repeat split.
  - cbn. lia.
  - intros cmd' c [H|[]]. now injection H as _ <-.
Qed.

Lemma appends_for_each {A} (l : list A) (body : A -> M unit) :
  (forall a, appends (children 0) (body a)) -> appends (children 0) (for_each l body).
Proof.
  intros Hb. induction l as [|x l IH]; cbn.
  - apply appends_ret.
  - apply (appends_bind 0 0); [apply Hb | intros _; exact IH].
Qed.

(** Steps through a stage that starts no child. *)
Ltac quiet_steps :=
  repeat first
    [ apply appends_ret | apply appends_print | apply appends_loads_event
    | apply appends_get_world | apply appends_set_world
    | apply appends_raise | apply appends_sys_exit
    | apply (appends_bind 0 0); [|intros ?]
    | apply (appends_try_except 0 0); [|intros ?]
    | apply appends_for_each; intros ?
    | match goal with
      | |- appends _ (if ?b then _ else _) => destruct b
      | |- appends _ (match ?x with _ => _ end) => destruct x
      end ].

Lemma appends_hr (title : string) : appends (children 0) (hr title).
Proof. unfold hr. quiet_steps. Qed.

Lemma appends_run (cmd : list string) (check : bool) :
  appends (children 1) (run spawn cmd ROOT check).
Proof.
  unfold run, subprocess_run.
  apply (appends_bind 0 1); [apply appends_print | intros _].
  apply (appends_bind 1 0).
  - apply (appends_bind 1 0); [apply appends_spawn_event | intros _]. quiet_steps.
  - intros p. quiet_steps.
Qed.

Lemma appends_version_check (tool : string) :
  appends (children 1) (version_check ROOT spawn tool).
Proof.
  unfold version_check, which.
  apply (appends_bind 0 1); [quiet_steps | intros p].
  destruct (truthy p).
  - apply (appends_bind 1 0); [apply appends_run | intros _; apply appends_ret].
  - apply (appends_weaken 0 1); [lia | apply appends_ret].
Qed.

Lemma appends_report_environment : appends (children 0) (report_environment ROOT).
Proof.
  unfold report_environment, safe_env_dump.
  apply (appends_bind 0 0); [apply appends_hr | intros _]. quiet_steps.
Qed.

Lemma appends_check_tooling : appends (children 4) (check_tooling ROOT spawn).
Proof.
  unfold check_tooling, which.
  apply (appends_bind 0 4); [apply appends_hr | intros _].
  apply (appends_bind 0 4); [quiet_steps | intros _].
  apply (appends_bind 1 3); [apply appends_version_check | intros _].
  apply (appends_bind 1 2); [apply appends_version_check | intros _].
  apply (appends_bind 1 1); [apply appends_version_check | intros _].
  apply appends_version_check.
Qed.

Lemma appends_directory_contents : appends (children 0) (directory_contents ROOT).
Proof.
  unfold directory_contents, ls_tree.
  apply (appends_bind 0 0); [apply appends_hr | intros _]. quiet_steps.
Qed.

Lemma appends_load_manifest : appends (children 0) (load_manifest ROOT json_loads).
Proof.
  unfold load_manifest, read_text, loads.
  apply (appends_bind 0 0); [apply appends_get_world | intros w].
  apply (appends_bind 0 0).
  - destruct (negb (exists_at w ["package.json"])); [|apply appends_ret].
    apply (appends_bind 0 0); [apply appends_hr | intros _]. quiet_steps.
  - intros _. apply (appends_bind 0 0); [apply appends_hr | intros _]. quiet_steps.
Qed.

Lemma appends_package_summary (pkg : pyval) :
  appends (children 0) (package_summary json_dumps pkg).
Proof. unfold package_summary, py_get. quiet_steps. Qed.

Lemma appends_determine_install_strategy :
  appends (children 0) determine_install_strategy.
Proof.
  unfold determine_install_strategy, which.
  apply (appends_bind 0 0); [apply appends_hr | intros _]. quiet_steps.
Qed.

Lemma appends_install_and_build (cmds : list string * list string) :
  appends (children 2) (install_and_build ROOT spawn cmds).
Proof.
  unfold install_and_build.
  apply (appends_bind 0 2); [apply appends_hr | intros _].
  apply (appends_bind 1 1); [apply appends_run | intros _].
  apply (appends_bind 0 1); [apply appends_hr | intros _].
  apply (appends_bind 1 0); [apply appends_run | intros _; apply appends_ret].
Qed.

Lemma appends_after_build : appends (children 0) (after_build ROOT).
Proof.
  unfold after_build, locate_build_output, publish_listing, success.
  apply (appends_bind 0 0).
  - apply (appends_bind 0 0); [apply appends_hr | intros _].
    apply (appends_bind 0 0); [apply appends_get_world | intros w].
    apply (appends_bind 0 0); [apply appends_print | intros _].
    apply (appends_bind 0 0); [|intros d; quiet_steps].
    destruct (in_names "dist" (found_candidates w)); [apply appends_ret|].
    destruct (in_names "build" (found_candidates w)); [apply appends_ret|].
    quiet_steps.
  - intros d. apply (appends_bind 0 0).
    + apply (appends_bind 0 0); [apply appends_hr | intros _]. quiet_steps.
    + intros _. apply (appends_bind 0 0); [apply appends_hr | intros _]. quiet_steps.
Qed.

(** Steps through a stage whose only exits are the ones at hand. *)
Ltac stage_exits :=
  repeat match goal with
         | |- exits_within _ (hr _) => apply exits_hr
         | |- exits_within _ (run _ _ _ false) => apply exits_run_unchecked
         | |- exits_within _ (sys_exit _) => apply exits_sys_exit; assumption
         | |- exits_within _ (ret _) => apply exits_ret
         | |- exits_within _ (emit _) => apply exits_emit
         | |- exits_within _ (print _) => apply exits_emit
         | |- exits_within _ get_world => apply exits_get_world
         | |- exits_within _ (raise _) => apply exits_raise
         | |- exits_within _ (bind _ _) => apply exits_bind; [|intros ?]
         | |- exits_within _ (try_except _ _) => apply exits_try_except; [|intros ?]
         | |- exits_within _ (for_each _ _) => apply exits_for_each; intros ?
         | |- exits_within _ (if ?b then _ else _) => destruct b
         | |- exits_within _ (match ?x with _ => _ end) => destruct x
         end.

Lemma exits_directory_contents (P : Z -> Prop) :
  P 2%Z -> exits_within P (directory_contents ROOT).
Proof. intros H2. unfold directory_contents, ls_tree. stage_exits. Qed.

Lemma exits_load_manifest (P : Z -> Prop) :
  P 3%Z -> P 4%Z -> exits_within P (load_manifest ROOT json_loads).
Proof.
  intros H3 H4. unfold load_manifest, read_text, loads. stage_exits.
Qed.

Lemma exits_package_summary (P : Z -> Prop) (pkg : pyval) :
  exits_within P (package_summary json_dumps pkg).
Proof. unfold package_summary, py_get. stage_exits. Qed.

Lemma exits_determine_install_strategy (P : Z -> Prop) :
  exits_within P determine_install_strategy.
Proof. unfold determine_install_strategy, which. stage_exits. Qed.

Lemma exits_install_and_build (cmds : list string * list string) :
  exits_within child_code (install_and_build ROOT spawn cmds).
Proof.
  unfold install_and_build.
  apply exits_bind; [apply exits_hr | intros _].
  apply exits_bind; [apply exits_run_checked | intros _].
  apply exits_bind; [apply exits_hr | intros _].
  apply exits_bind; [apply exits_run_checked | intros _; apply exits_ret].
Qed.

Lemma exits_after_build (P : Z -> Prop) :
  P 5%Z -> exits_within P (after_build ROOT).
Proof.
  intros H5.
  unfold after_build, locate_build_output, publish_listing, success.
  stage_exits.
Qed.

(** X9.  A run calls the script's process executor, and through it
    [subprocess.run], at most six times (four version checks, the
    install and the build), every time with [ROOT] as working
    directory, and only ever adds to what it has printed.  Processes
    that library calls such as [platform.platform()] start on their own
    are not calls of the executor and are not counted. *)
Theorem main_spawns_at_most_six :
  forall s : state,
  exists evs : list event,
    st_trace (snd (main ROOT spawn json_loads json_dumps s)) = st_trace s ++ evs
    /\ count_spawns evs <= 6
    /\ spawned_in ROOT evs.
Proof.
  assert (H : appends (children 6) (main ROOT spawn json_loads json_dumps)).
  { unfold main.
    apply (appends_bind 0 6); [apply appends_report_environment | intros _].
    apply (appends_bind 4 2); [apply appends_check_tooling | intros _].
    apply (appends_bind 0 2); [apply appends_directory_contents | intros _].
    apply (appends_bind 0 2); [apply appends_load_manifest | intros pkg].
    apply (appends_bind 0 2); [apply appends_package_summary | intros _].
    apply (appends_bind 0 2); [apply appends_determine_install_strategy | intros cmds].
    apply (appends_bind 2 0); [apply appends_install_and_build | intros _].
    apply appends_after_build. }
  exact H.
Qed.

(** X10.  When a run leaves by [sys.exit], the code is 2, 3, 4, 5 or
    the non-zero exit code of a child started in [ROOT]; it is never
    0. *)
Theorem main_exit_codes :
  forall (s s' : state) (c : Z),
    main ROOT spawn json_loads json_dumps s = (SysExit c, s') ->
    (c = 2 \/ c = 3 \/ c = 4 \/ c = 5
     \/ exists cmd w out w', spawn cmd ROOT w = Spawned c out w')%Z
    /\ c <> 0%Z.
Proof.
  set (P := fun c : Z =>
              (c = 2 \/ c = 3 \/ c = 4 \/ c = 5
               \/ exists cmd w out w', spawn cmd ROOT w = Spawned c out w')%Z
              /\ c <> 0%Z).
  assert (H2 : P 2%Z) by (split; [tauto | discriminate]).
  assert (H3 : P 3%Z) by (split; [tauto | discriminate]).
  assert (H4 : P 4%Z) by (split; [tauto | discriminate]).
  assert (H5 : P 5%Z) by (split; [tauto | discriminate]).
  assert (H : exits_within P (main ROOT spawn json_loads json_dumps)).
  { unfold main.
    apply exits_bind; [|intros _].
    { unfold report_environment, safe_env_dump. stage_exits. }
    apply exits_bind; [|intros _].
    { unfold check_tooling, version_check, which. stage_exits. }
    apply exits_bind; [now apply exits_directory_contents | intros _].
    apply exits_bind; [now apply exits_load_manifest | intros pkg].
    apply exits_bind; [apply exits_package_summary | intros _].
    apply exits_bind; [apply exits_determine_install_strategy | intros cmds].
    apply exits_bind; [|intros _; now apply exits_after_build].
    apply (exits_weaken child_code); [|apply exits_install_and_build].
    intros c [Hc Hchild]. split; [|exact Hc]. tauto. }
  intros s s' c Hrun. exact (H s c s' Hrun).
Qed.

End Accounting.

Lemma main_exit_codes_witness :
  (4 = 2 \/ 4 = 3 \/ 4 = 4 \/ 4 = 5
   \/ exists cmd w out w', demo_spawn 0 dist3 cmd demo_ROOT w = Spawned 4 out w')%Z
  /\ 4%Z <> 0%Z.
Proof.
  apply (main_exit_codes demo_ROOT (demo_spawn 0 dist3) demo_loads demo_dumps
           (demo_state (Some (project "{")))
           (snd (main demo_ROOT (demo_spawn 0 dist3) demo_loads demo_dumps
                      (demo_state (Some (project "{")))))).
  vm_compute. reflexivity.
Defined.

(* ================================================================== *)
(** * Further properties: how the stages chain *)
(* ================================================================== *)

Section Chaining.

Variable ROOT : string.
Variable spawn : list string -> string -> world -> spawn_result.
Variable json_loads : string -> string + pyval.
Variable json_dumps : pyval -> string.

Lemma main_from_sanity (s s0 : state) :
  before_sanity ROOT spawn s = (Ret tt, s0) ->
  main ROOT spawn json_loads json_dumps s
  = bind (directory_contents ROOT)
         (fun _ => from_manifest ROOT spawn json_loads json_dumps) s0.
Proof.
  intros H. unfold main, before_sanity, from_manifest, bind in *.
  split_run H. rewrite H. reflexivity.
Qed.

Lemma main_from_strategy (s s3 : state) (cmds : list string * list string) :
  through_strategy ROOT spawn json_loads json_dumps s = (Ret cmds, s3) ->
  main ROOT spawn json_loads json_dumps s
  = bind (install_and_build ROOT spawn cmds) (fun _ => after_build ROOT) s3.
Proof.
  intros H. unfold main, through_strategy, before_manifest, bind in *.
  split_run H. rewrite H. reflexivity.
Qed.

Lemma run_unchecked_returns (cmd : list string) (cwd : string) (s : state) :
  (forall cmd cwd w, exists rc out w', spawn cmd cwd w = Spawned rc out w') ->
  exists p s', run spawn cmd cwd false s = (Ret p, s').
Proof.
  intros Hstart.
  destruct (Hstart cmd cwd (st_world s)) as [rc [out [w' Hs]]].
  unfold run, subprocess_run, bind, print, emit, get_world, set_world, ret.
  cbn. rewrite Hs. cbn. eauto.
Qed.

Lemma version_check_returns (tool : string) (s : state) :
  (forall cmd cwd w, exists rc out w', spawn cmd cwd w = Spawned rc out w') ->
  exists s', version_check ROOT spawn tool s = (Ret tt, s').
Proof.
  intros Hstart. unfold version_check, which, bind, get_world, ret.
  cbn beta iota. destruct (truthy (w_which (st_world s) tool)); [|eauto].
  destruct (run_unchecked_returns [tool; "-v"] ROOT s Hstart) as [p [s' ->]].
  eauto.
Qed.

(** X11.  The exit codes of the version checks are never fatal: as
    long as [subprocess.run] returns for every command (the child was
    started and what it wrote is text), the tooling stage returns
    whatever exit codes the children end with. *)
Theorem tooling_checks_are_not_fatal :
  (forall cmd cwd w, exists rc out w', spawn cmd cwd w = Spawned rc out w') ->
  forall s : state, fst (check_tooling ROOT spawn s) = Ret tt.
Proof.
  intros Hstart s. unfold check_tooling, bind. rewrite hr_run.
  cbn [for_each]. unfold which, bind, get_world, ret. rewrite !print_run.
  repeat match goal with
         | |- context [version_check ROOT spawn ?tool ?st] =>
             let s' := fresh "s" in
             let E := fresh "E" in
             destruct (version_check_returns tool st Hstart) as [s' E];
             rewrite E
         end.
  reflexivity.
Qed.

(** X12.  The root directory is missing when the sanity check is
    reached: the run prints the section banner and the error line,
    exits with code 2, and goes no further. *)
Theorem missing_root_exits_2 :
  forall s s0 : state,
    before_sanity ROOT spawn s = (Ret tt, s0) ->
    w_root (st_world s0) = None ->
    main ROOT spawn json_loads json_dumps s
    = (SysExit 2%Z,
       add_events s0
         (hr_events "FRONTEND DIRECTORY CONTENTS (SANITY)" ++
          [Print [PStr "ERROR: frontend directory not found."]])).
Proof.
  intros s s0 Hpre Hroot. rewrite (main_from_sanity _ _ Hpre).
  unfold bind, directory_contents, bind, get_world. rewrite hr_run.
  cbn beta iota. cbn [st_world add_events]. rewrite Hroot.
  rewrite print_run, add_events_app. reflexivity.
Qed.

(** X13.  [package.json] is a directory: it exists, reading it fails,
    the failure is caught like a parse failure: the run prints the
    failure line and exits with code 4, with no parse attempted and no
    command spawned. *)
Theorem manifest_directory_exits_4 :
  forall (s s1 : state) (ch : list (string * node)),
    before_manifest ROOT spawn s = (Ret tt, s1) ->
    node_at (st_world s1) ["package.json"] = Some (Dir ch) ->
    exists msg : string,
      main ROOT spawn json_loads json_dumps s
      = (SysExit 4%Z,
         add_events s1
           (hr_events "PACKAGE.JSON SUMMARY" ++
            [Print [PStr "Failed to parse package.json:"; PStr msg]])).
Proof.
  intros s s1 ch Hpre Hdir. eexists.
  rewrite (main_from_manifest _ _ _ _ _ _ Hpre).
  unfold from_manifest, bind. rewrite load_manifest_run, Hdir. reflexivity.
Qed.

(** X14.  An object manifest never stops the run, whatever keys it has
    or lacks: the run reaches the strategy, which is the selection for
    the lockfiles and executables of the world as it was, and the
    manifest has no part in it. *)
Theorem object_manifest_reaches_strategy :
  forall (s s1 : state) (text : string) (d : list (string * pyval)),
    before_manifest ROOT spawn s = (Ret tt, s1) ->
    node_at (st_world s1) ["package.json"] = Some (File text) ->
    json_loads text = inr (PDict d) ->
    let w := st_world s1 in
    exists s3 : state,
      through_strategy ROOT spawn json_loads json_dumps s
      = (Ret (install_strategy (exists_at w ["pnpm-lock.yaml"])
                               (exists_at w ["package-lock.json"])
                               (exists_at w ["yarn.lock"])
                               (w_which w "pnpm") (w_which w "yarn")),
         s3)
      /\ st_world s3 = w.
Proof.
  intros s s1 text d Hpre Hfile Hok w. subst w.
  eexists. split.
  - unfold through_strategy. rewrite (bind_run _ _ _ _ _ Hpre).
    unfold bind at 1. rewrite load_manifest_run, Hfile, Hok.
    unfold package_summary, py_get, determine_install_strategy, which, hr, bind.
    cbn -[install_strategy exists_at]. reflexivity.
  - reflexivity.
Qed.

(** X15.  The install command ends with a non-zero exit code: the run
    prints the banner and exits with that code; the build command is
    not started. *)
Theorem install_failure_stops_the_run :
  forall (s s3 : state) (cmds : list string * list string)
         (rc : Z) (out : string) (w' : world),
    through_strategy ROOT spawn json_loads json_dumps s = (Ret cmds, s3) ->
    spawn (fst cmds) ROOT (st_world s3) = Spawned rc out w' ->
    rc <> 0%Z ->
    main ROOT spawn json_loads json_dumps s
    = (SysExit rc,
       {| st_world := w';
          st_trace := st_trace s3 ++
            hr_events "INSTALL DEPENDENCIES" ++
            [Print [PStr (command_echo (fst cmds) ROOT)]; Spawn (fst cmds) ROOT;
             Print [PStr out]; Print [PStr (failure_banner rc (fst cmds))]] |}).
Proof.
  intros s s3 cmds rc out w' Hpre Hspawn Hrc.
  rewrite (main_from_strategy _ _ _ Hpre).
  unfold bind, install_and_build, bind. rewrite hr_run.
  unfold run, subprocess_run, bind, print, emit, get_world, set_world, ret, sys_exit.
  cbn. rewrite Hspawn. cbn.
  destruct (Z.eqb_spec rc 0) as [->|_]; [contradiction|]. cbn.
  rewrite <- !app_assoc. reflexivity.
Qed.

(** X16.  The install succeeded and the build command ends with a
    non-zero exit code: the run prints the banner and exits with that
    code, before any build output is looked for. *)
Theorem build_failure_stops_the_run :
  forall (s s3 : state) (cmds : list string * list string)
         (out1 : string) (w1 : world) (rc : Z) (out : string) (w' : world),
    through_strategy ROOT spawn json_loads json_dumps s = (Ret cmds, s3) ->
    spawn (fst cmds) ROOT (st_world s3) = Spawned 0%Z out1 w1 ->
    spawn (snd cmds) ROOT w1 = Spawned rc out w' ->
    rc <> 0%Z ->
    main ROOT spawn json_loads json_dumps s
    = (SysExit rc,
       {| st_world := w';
          st_trace := st_trace s3 ++
            hr_events "INSTALL DEPENDENCIES" ++
            [Print [PStr (command_echo (fst cmds) ROOT)]; Spawn (fst cmds) ROOT;
             Print [PStr out1]] ++
            hr_events "RUN BUILD" ++
            [Print [PStr (command_echo (snd cmds) ROOT)]; Spawn (snd cmds) ROOT;
             Print [PStr out]; Print [PStr (failure_banner rc (snd cmds))]] |}).
Proof.
  intros s s3 cmds out1 w1 rc out w' Hpre Hinstall Hbuild Hrc.
  rewrite (main_from_strategy _ _ _ Hpre).
  unfold bind, install_and_build, bind. rewrite hr_run.
  unfold run, subprocess_run, bind, print, emit, get_world, set_world, ret, sys_exit.
  cbn. rewrite Hinstall. cbn. rewrite Hbuild. cbn.
  destruct (Z.eqb_spec rc 0) as [->|_]; [contradiction|]. cbn.
  rewrite <- !app_assoc. reflexivity.
Qed.

(** X18.  The chosen install command cannot be started (its executable
    is missing): the run ends in the exception of [subprocess.run],
    uncaught, exit status 1, after the echo line, with neither failure
    banner nor build. *)
Theorem installer_not_started_is_uncaught :
  forall (s s3 : state) (cmds : list string * list string) (e : exn),
    through_strategy ROOT spawn json_loads json_dumps s = (Ret cmds, s3) ->
    spawn (fst cmds) ROOT (st_world s3) = SpawnFailed e ->
    main ROOT spawn json_loads json_dumps s
    = (Raised e,
       add_events s3
         (hr_events "INSTALL DEPENDENCIES" ++
          [Print [PStr (command_echo (fst cmds) ROOT)]; Spawn (fst cmds) ROOT]))
    /\ exit_status (fst (main ROOT spawn json_loads json_dumps s)) = 1%Z.
Proof.
  intros s s3 cmds e Hpre Hspawn.
  assert (H : main ROOT spawn json_loads json_dumps s
              = (Raised e,
                 add_events s3
                   (hr_events "INSTALL DEPENDENCIES" ++
                    [Print [PStr (command_echo (fst cmds) ROOT)];
                     Spawn (fst cmds) ROOT]))).
  { rewrite (main_from_strategy _ _ _ Hpre).
    unfold bind, install_and_build, bind. rewrite hr_run.
    unfold run, subprocess_run, bind, print, emit, get_world, raise.
    cbn. rewrite Hspawn. unfold add_events. cbn.
    rewrite <- !app_assoc. reflexivity. }
  split; [exact H | now rewrite H].
Qed.

(** X17.  After a build that succeeded the run ends normally, with
    exit status 0, exactly when [dist] or [build] is a directory; the
    number and kind of entries in it play no part. *)
Theorem success_iff_output_directory :
  forall s s2 : state,
    through_build ROOT spawn json_loads json_dumps s = (Ret tt, s2) ->
    (fst (main ROOT spawn json_loads json_dumps s) = Ret tt
     <-> is_dir_at (st_world s2) ["dist"] = true
         \/ is_dir_at (st_world s2) ["build"] = true).
Proof.
  intros s s2 Hpre. rewrite (main_after_build _ _ _ _ _ _ Hpre).
  pose proof (locate_build_output_run ROOT s2) as Hloc. cbn zeta in Hloc.
  destruct (is_dir_at (st_world s2) ["dist"]).
  - rewrite (after_locate_run _ _ _ _ Hloc). cbn. tauto.
  - destruct (is_dir_at (st_world s2) ["build"]).
    + rewrite (after_locate_run _ _ _ _ Hloc). cbn. tauto.
    + unfold after_build, bind. rewrite Hloc. cbn. split.
      * discriminate.
      * intros [H|H]; discriminate H.
Qed.

End Chaining.

Lemma tooling_checks_are_not_fatal_witness :
  fst (check_tooling demo_ROOT (demo_spawn 3 []) (demo_state (Some (project "{}"))))
  = Ret tt.
Proof.
  apply (tooling_checks_are_not_fatal demo_ROOT (demo_spawn 3 [])).
  intros cmd cwd w. unfold demo_spawn.
  destruct (String.eqb (String.concat " " cmd) "npm run build"); eauto.
Defined.

Lemma missing_root_exits_2_witness :
  fst (main demo_ROOT (demo_spawn 0 dist3) demo_loads demo_dumps (demo_state None))
  = SysExit 2%Z.
Proof.
  assert (Hpre : before_sanity demo_ROOT (demo_spawn 0 dist3) (demo_state None)
                 = (Ret tt,
                    snd (before_sanity demo_ROOT (demo_spawn 0 dist3) (demo_state None))))
    by (vm_compute; reflexivity).
  rewrite (missing_root_exits_2 demo_ROOT (demo_spawn 0 dist3) demo_loads demo_dumps
             _ _ Hpre); reflexivity.
Defined.

Lemma manifest_directory_exits_4_witness :
  fst (main demo_ROOT (demo_spawn 0 dist3) demo_loads demo_dumps
            (demo_state (Some (Dir [("package.json", Dir [])]))))
  = SysExit 4%Z.
Proof.
  assert (Hpre : before_manifest demo_ROOT (demo_spawn 0 dist3)
                   (demo_state (Some (Dir [("package.json", Dir [])])))
                 = (Ret tt,
                    snd (before_manifest demo_ROOT (demo_spawn 0 dist3)
                           (demo_state (Some (Dir [("package.json", Dir [])]))))))
    by (vm_compute; reflexivity).
  destruct (manifest_directory_exits_4 demo_ROOT (demo_spawn 0 dist3)
              demo_loads demo_dumps _ _ [] Hpre) as [msg H].
  - vm_compute; reflexivity.
  - rewrite H. reflexivity.
Defined.

Lemma object_manifest_reaches_strategy_witness :
  fst (through_strategy demo_ROOT (demo_spawn 0 dist3) demo_loads demo_dumps
         (demo_state (Some (project "{}"))))
  = Ret (["npm"; "install"], ["npm"; "run"; "build"]).
Proof.
  assert (Hpre : before_manifest demo_ROOT (demo_spawn 0 dist3)
                   (demo_state (Some (project "{}")))
                 = (Ret tt,
                    snd (before_manifest demo_ROOT (demo_spawn 0 dist3)
                           (demo_state (Some (project "{}"))))))
    by (vm_compute; reflexivity).
  destruct (object_manifest_reaches_strategy demo_ROOT (demo_spawn 0 dist3)
              demo_loads demo_dumps _ _ "{}" [] Hpre) as [s3 [H _]].
  - vm_compute; reflexivity.
  - vm_compute; reflexivity.
  - rewrite H. reflexivity.
Defined.

Lemma install_failure_stops_the_run_witness :
  fst (main demo_ROOT (demo_spawn 2 []) demo_loads demo_dumps
            (demo_state (Some (project "{}"))))
  = SysExit 2%Z.
Proof.
  assert (Hpre : through_strategy demo_ROOT (demo_spawn 2 []) demo_loads demo_dumps
                   (demo_state (Some (project "{}")))
                 = (Ret (["npm"; "install"], ["npm"; "run"; "build"]),
                    snd (through_strategy demo_ROOT (demo_spawn 2 []) demo_loads
                           demo_dumps (demo_state (Some (project "{}"))))))
    by (vm_compute; reflexivity).
  rewrite (install_failure_stops_the_run demo_ROOT (demo_spawn 2 []) demo_loads
             demo_dumps _ _ _ 2%Z "ok" (demo_world (Some (project "{}"))) Hpre).
  - reflexivity.
  - vm_compute; reflexivity.
  - discriminate.
Defined.

Lemma build_failure_stops_the_run_witness :
  fst (main demo_ROOT failing_build demo_loads demo_dumps
            (demo_state (Some (project "{}"))))
  = SysExit 7%Z.
Proof.
  assert (Hpre : through_strategy demo_ROOT failing_build demo_loads demo_dumps
                   (demo_state (Some (project "{}")))
                 = (Ret (["npm"; "install"], ["npm"; "run"; "build"]),
                    snd (through_strategy demo_ROOT failing_build demo_loads
                           demo_dumps (demo_state (Some (project "{}"))))))
    by (vm_compute; reflexivity).
  rewrite (build_failure_stops_the_run demo_ROOT failing_build demo_loads
             demo_dumps _ _ _ "ok" (demo_world (Some (project "{}")))
             7%Z "boom" (demo_world (Some (project "{}"))) Hpre).
  - reflexivity.
  - vm_compute; reflexivity.
  - vm_compute; reflexivity.
  - discriminate.
Defined.

Lemma success_iff_output_directory_witness :
  fst (main demo_ROOT (demo_spawn 0 dist3) demo_loads demo_dumps
            (demo_state (Some (project "{}"))))
  = Ret tt.
Proof.
  assert (Hpre : through_build demo_ROOT (demo_spawn 0 dist3) demo_loads demo_dumps
                   (demo_state (Some (project "{}")))
                 = (Ret tt,
                    snd (through_build demo_ROOT (demo_spawn 0 dist3)
                           demo_loads demo_dumps
                           (demo_state (Some (project "{}"))))))
    by (vm_compute; reflexivity).
  apply (success_iff_output_directory demo_ROOT (demo_spawn 0 dist3)
           demo_loads demo_dumps _ _ Hpre).
  left. vm_compute. reflexivity.
Defined.

Lemma installer_not_started_is_uncaught_witness :
  exit_status
    (fst (main demo_ROOT
               (fun cmd cwd w =>
                  if String.eqb (String.concat " " cmd) "npm install"
                  then SpawnFailed (FileNotFoundError "npm")
                  else Spawned 0 "ok" w)
               demo_loads demo_dumps (demo_state (Some (project "{}")))))
  = 1%Z.
Proof.
  assert (Hpre : through_strategy demo_ROOT
                   (fun cmd cwd w =>
                      if String.eqb (String.concat " " cmd) "npm install"
                      then SpawnFailed (FileNotFoundError "npm")
                      else Spawned 0 "ok" w)
                   demo_loads demo_dumps (demo_state (Some (project "{}")))
                 = (Ret (["npm"; "install"], ["npm"; "run"; "build"]),
                    snd (through_strategy demo_ROOT
                           (fun cmd cwd w =>
                              if String.eqb (String.concat " " cmd) "npm install"
                              then SpawnFailed (FileNotFoundError "npm")
                              else Spawned 0 "ok" w)
                           demo_loads demo_dumps (demo_state (Some (project "{}"))))))
    by (vm_compute; reflexivity).
  destruct (installer_not_started_is_uncaught demo_ROOT _ demo_loads demo_dumps
              _ _ _ (FileNotFoundError "npm") Hpre) as [_ H].
  - vm_compute; reflexivity.
  - exact H.
Defined.
